(** * pycdg: the playback loop of the CDG karaoke player

    A shallow embedding of [pycdg.py] (class [cdgPlayer]): the player's
    attributes are a record, every method is a function from the player
    (and the readings it takes from its environment) to the new player
    together with the list of calls it made to its collaborators
    (the packet reader, pygame, the manager, the callbacks, [print]).

    Times (clock readings, offsets, song positions) are Python integers,
    here [Z]; [/] on Python 2 integers is floor division, which is [Z.div]
    for the positive divisors used here.  The two places where the source
    computes in floating point ([ms_per_update] and the display scale) are
    embedded in exact rational arithmetic ([Q]). *)

From Stdlib Require Import ZArith QArith Qround List String Ascii Bool Lia.
Import ListNotations.
Open Scope Z_scope.

(** ** Module constants *)

Definition CDG_DISPLAY_WIDTH : Z := 294.
Definition CDG_DISPLAY_HEIGHT : Z := 204.

Definition CDG_FULL_WIDTH : Z := 300.
Definition CDG_FULL_HEIGHT : Z := 216.

(** The viewable area of the screen (294x204) is divided into 24 tiles. *)
Definition TILES_PER_ROW : Z := 6.
Definition TILES_PER_COL : Z := 4.
Definition TILE_WIDTH : Z := CDG_DISPLAY_WIDTH / TILES_PER_ROW.
Definition TILE_HEIGHT : Z := CDG_DISPLAY_HEIGHT / TILES_PER_COL.

(** ** Values exchanged with the collaborators *)

(** An RGB triple, as handed to [manager.display.fill]. *)
Definition colour : Type := Z * Z * Z.

(** [pygame.Rect(left, top, width, height)]. *)
Definition Rect : Type := Z * Z * Z * Z.

Definition colour_eqb (a b : colour) : bool :=
  let '(r1, g1, b1) := a in
  let '(r2, g2, b2) := b in
  (r1 =? r2) && (g1 =? g2) && (b1 =? b2).

(** Python's [==] between two values that are a colour or [None]. *)
Definition opt_colour_eqb (a b : option colour) : bool :=
  match a, b with
  | None, None => true
  | Some x, Some y => colour_eqb x y
  | _, _ => false
  end.

(** String exceptions ([raise 'NoSuchFile']) and the built-in ones the
    code can run into. *)
Inductive exn : Type :=
| StringException (s : string)
| IndexError
| OSError
| AttributeError
| ZeroDivisionError.

Inductive outcome (A : Type) : Type :=
| Returns (a : A)
| Raises (e : exn).
Arguments Returns {A} a.
Arguments Raises {A} e.

(** The calls the player makes to its collaborators, in program order. *)
Inductive event : Type :=
(* callbacks and stdout *)
| EvErrorNotify (msg : string)
| EvPrint (msg : string)
| EvClose
(* the manager and its display *)
| EvInitPlayer
| EvOpenDisplay
| EvOpenAudio (props : Z * Z * Z)
| EvDisplayFill (c : colour)
| EvDisplayBlit (r : Rect)
| EvDisplayBlitAt (x y : Z)
| EvDisplayUpdate (rects : list Rect)
| EvDisplayFlip
(* pygame surfaces and transforms *)
| EvNewSurface (w h : Z)
| EvWorkingSurfaceBlit (x y : Z)
| EvTransformScale (w h : Z)
| EvTransformRotozoom (scale : Q)
(* pygame.mixer.music *)
| EvMusicLoad (f : string)
| EvMusicSetEndevent
| EvMusicPlay
| EvMusicPause
| EvMusicUnpause
| EvMusicRewind
| EvMusicStop
(* the packet reader *)
| EvOpenReader (f : string)
| EvDoPackets (numPackets : Z)
| EvReaderRewind
| EvMarkTilesDirty
| EvGetBorderColour
| EvGetDirtyTiles
| EvFillTile (row col : Z).

(** ** The environment: manager, clock, operating system *)

Record Options : Type := mkOptions {
  nomusic : bool;
  fps : Z;
  zoom_mode : string
}.

(** [manager]: its options, the size of the window (a positive number of
    pixels each way) and the length of the audio buffer. *)
Record Manager : Type := mkManager {
  options : Options;
  displaySize : positive * positive;
  GetAudioBufferMS : Z
}.

(** What pygame's two clocks answer when a method asks. *)
Record Clock : Type := mkClock {
  music_get_pos : Z;   (* pygame.mixer.music.get_pos() *)
  time_get_ticks : Z   (* pygame.time.get_ticks() *)
}.

(** The parts of [os], [os.path] and [MP3Info] that [__init__] uses, and
    the disk behind them. *)
Record Os : Type := mkOs {
  isfile : string -> bool;
  listdir : string -> option (list string);      (* None: OSError *)
  path_split : string -> string * string;
  path_join : string -> string -> string;
  path_splitext : string -> string * string;
  MP3Info : string -> option (Z * string);       (* samplerate, mode *)
  file_bytes : string -> list Z
}.

(** ** The tile grid *)

(** The pairs [(row, col)] the reader hands out are used by
    [cdgDisplayUpdate] as [displayTileWidth * row] and
    [displayTileHeight * col]: the first component counts the 6 tiles
    across, the second the 4 tiles down. *)
Definition tilesOfBand (col : Z) : list (Z * Z) :=
  map (fun row => (row, col)) [0; 1; 2; 3; 4; 5].

Definition allTiles : list (Z * Z) :=
  flat_map tilesOfBand [0; 1; 2; 3].

(** ** The packet reader

    [_pycdgAux.CdgPacketReader] is imported by [pycdg.py] but is not part
    of this file; it is embedded from its specification. *)

(** Modelled from the spec: the state the CDG command interpreter owns
    (the module [_pycdgAux] is missing).  The colour table has 16 entries,
    the pixel surface holds colour indices, the two preset indices are
    empty until a preset command sets them, and [updatedTiles] is the set
    of dirty tiles. *)
Record CdgScreen : Type := mkScreen {
  cdgColourTable : list colour;
  cdgPixelColours : list (list Z);
  cdgPresetColourIndex : option Z;
  cdgBorderColourIndex : option Z;
  updatedTiles : list (Z * Z)
}.

(** Modelled from the spec: the CDG command interpreter of [_pycdgAux],
    which applies one packet to the screen state.  What each opcode does
    to the pixels is not needed here, so the interpreter is an interface. *)
Class CdgInterpreter : Type := {
  cdgPacketProcess : list Z -> CdgScreen -> CdgScreen
}.

(** Modelled from the spec: the packet stream reader of [_pycdgAux]:
    the bytes of the CDG file, the bytes not read yet, and the number of
    packets delivered since the stream was opened or rewound. *)
Record CdgPacketReader : Type := mkReader {
  cdgSource : list Z;
  cdgUnread : list Z;
  cdgDelivered : Z;
  cdgScreen : CdgScreen
}.

Definition set_cdgScreen (s : CdgScreen) (r : CdgPacketReader) : CdgPacketReader :=
  mkReader (cdgSource r) (cdgUnread r) (cdgDelivered r) s.

Definition set_updatedTiles (t : list (Z * Z)) (s : CdgScreen) : CdgScreen :=
  mkScreen (cdgColourTable s) (cdgPixelColours s) (cdgPresetColourIndex s)
           (cdgBorderColourIndex s) t.

(** Modelled from the spec: the initial screen, index 0 everywhere, no
    preset or border colour yet, no tile dirty. *)
Definition initialScreen : CdgScreen :=
  mkScreen (repeat (0, 0, 0) 16)
           (repeat (repeat 0 (Z.to_nat CDG_FULL_WIDTH)) (Z.to_nat CDG_FULL_HEIGHT))
           None None [].

(** Modelled from the spec: [Open(source)] positions at the first packet. *)
Definition OpenReader (bytes : list Z) : CdgPacketReader :=
  mkReader bytes bytes 0 initialScreen.

(** Modelled from the spec: [ReadNext() -> packet | EndOfStream].  A packet
    is exactly 24 bytes; when fewer remain the stream is at its end and the
    truncated tail is dropped. *)
Definition ReadNext (r : CdgPacketReader) : option (list Z) * CdgPacketReader :=
  let chunk := firstn 24 (cdgUnread r) in
  if (List.length chunk =? 24)%nat
  then (Some chunk,
        mkReader (cdgSource r) (skipn 24 (cdgUnread r)) (cdgDelivered r + 1)
                 (cdgScreen r))
  else (None, mkReader (cdgSource r) [] (cdgDelivered r) (cdgScreen r)).

(** Modelled from the spec: only packets whose command byte (the first
    byte), masked to its low 6 bits, is the CDG command 0x09 reach the
    interpreter; the others are consumed and dropped. *)
Definition isCdgCommand (packet : list Z) : bool :=
  Z.land (hd 0 packet) 63 =? 9.

Section Reader.
Context {interp : CdgInterpreter}.

Definition applyPacket (packet : list Z) (r : CdgPacketReader) : CdgPacketReader :=
  if isCdgCommand packet
  then set_cdgScreen (cdgPacketProcess packet (cdgScreen r)) r
  else r.

(** Modelled from the spec: the reader advances by the requested number of
    packets, each one handed to the interpreter, and reports the end of
    the stream by answering [false]. *)
Fixpoint DoPackets_loop (n : nat) (r : CdgPacketReader) : bool * CdgPacketReader :=
  match n with
  | O => (true, r)
  | S n' =>
      match ReadNext r with
      | (Some packet, r') => DoPackets_loop n' (applyPacket packet r')
      | (None, r') => (false, r')
      end
  end.

Definition DoPackets (numPackets : Z) (r : CdgPacketReader) : bool * CdgPacketReader :=
  DoPackets_loop (Z.to_nat numPackets) r.

End Reader.

(** Modelled from the spec: [Rewind()] resets to the first packet. *)
Definition Rewind (r : CdgPacketReader) : CdgPacketReader :=
  mkReader (cdgSource r) (cdgSource r) 0 (cdgScreen r).

(** Modelled from the spec: [MarkAllDirty()] sets every tile dirty. *)
Definition MarkTilesDirty (r : CdgPacketReader) : CdgPacketReader :=
  set_cdgScreen (set_updatedTiles allTiles (cdgScreen r)) r.

(** Modelled from the spec: [GetDirtyTiles()] returns the dirty tiles and
    does not clear them. *)
Definition GetDirtyTiles (r : CdgPacketReader) : list (Z * Z) :=
  updatedTiles (cdgScreen r).

(** Modelled from the spec: [ClearDirty()] resets all tiles to clean. *)
Definition ClearDirty (r : CdgPacketReader) : CdgPacketReader :=
  set_cdgScreen (set_updatedTiles [] (cdgScreen r)) r.

(** Modelled from the spec: the border colour is the colour table entry of
    the border colour index, and null while no border preset was seen. *)
Definition GetBorderColour (r : CdgPacketReader) : option colour :=
  match cdgBorderColourIndex (cdgScreen r) with
  | None => None
  | Some i => nth_error (cdgColourTable (cdgScreen r)) (Z.to_nat i)
  end.
(** ** The player

    [cdgPlayer] derives from [pykPlayer] ([pykplayer.py]), which is imported
    and not part of this file, as are the constants of [pykconstants]. *)

(** The attributes of the base class that [cdgPlayer] reads or writes. *)
Record pykPlayer : Type := mkPykPlayer {
  State : Z;
  FileName : string;
  UserOffsetTime : Z
}.

Definition set_FileName (f : string) (b : pykPlayer) : pykPlayer :=
  mkPykPlayer (State b) f (UserOffsetTime b).

(** The imported names [cdgPlayer] relies on: the constant [STATE_PLAYING]
    and the base-class methods it calls.  The base class knows nothing of
    the attributes [cdgPlayer] adds, so its methods act on [pykPlayer]. *)
Class PykPlayerBase : Type := {
  STATE_PLAYING : Z;
  pykPlayer_init : option string -> pykPlayer;
  pykPlayer_doStuff : pykPlayer -> pykPlayer;
  pykPlayer_Close : pykPlayer -> pykPlayer;
  pykPlayer_shutdown : pykPlayer -> pykPlayer
}.

(** The attributes of a [cdgPlayer] instance.  [PauseStartTime] exists only
    once [doPause] has set it. *)
Record cdgPlayer : Type := mkPlayer {
  base : pykPlayer;
  SoundFileName : option string;
  pauseOffsetTime : Z;
  PauseStartTime : option Z;
  borderColour : option colour;
  displayScale : Q;
  displayRowOffset : Z;
  displayColOffset : Z;
  displayTileWidth : Z;
  displayTileHeight : Z;
  packetReader : CdgPacketReader;
  InternalOffsetTime : Z;
  cdgReadPackets : Z;
  cdgPacketsDue : Z;
  LastPos : Z;
  curr_pos : Z;
  PlayTime : Z;
  PlayStartTime : Z;
  ms_per_update : Q
}.

Definition set_base (v : pykPlayer) (self : cdgPlayer) : cdgPlayer :=
  mkPlayer v (SoundFileName self) (pauseOffsetTime self) (PauseStartTime
    self) (borderColour self) (displayScale self) (displayRowOffset self)
    (displayColOffset self) (displayTileWidth self) (displayTileHeight self)
    (packetReader self) (InternalOffsetTime self) (cdgReadPackets self)
    (cdgPacketsDue self) (LastPos self) (curr_pos self) (PlayTime self)
    (PlayStartTime self) (ms_per_update self).

Definition set_pauseOffsetTime (v : Z) (self : cdgPlayer) : cdgPlayer :=
  mkPlayer (base self) (SoundFileName self) v (PauseStartTime self)
    (borderColour self) (displayScale self) (displayRowOffset self)
    (displayColOffset self) (displayTileWidth self) (displayTileHeight self)
    (packetReader self) (InternalOffsetTime self) (cdgReadPackets self)
    (cdgPacketsDue self) (LastPos self) (curr_pos self) (PlayTime self)
    (PlayStartTime self) (ms_per_update self).

Definition set_PauseStartTime (v : option Z) (self : cdgPlayer) : cdgPlayer :=
  mkPlayer (base self) (SoundFileName self) (pauseOffsetTime self) v
    (borderColour self) (displayScale self) (displayRowOffset self)
    (displayColOffset self) (displayTileWidth self) (displayTileHeight self)
    (packetReader self) (InternalOffsetTime self) (cdgReadPackets self)
    (cdgPacketsDue self) (LastPos self) (curr_pos self) (PlayTime self)
    (PlayStartTime self) (ms_per_update self).

Definition set_borderColour (v : option colour) (self : cdgPlayer) : cdgPlayer :=
  mkPlayer (base self) (SoundFileName self) (pauseOffsetTime self)
    (PauseStartTime self) v (displayScale self) (displayRowOffset self)
    (displayColOffset self) (displayTileWidth self) (displayTileHeight self)
    (packetReader self) (InternalOffsetTime self) (cdgReadPackets self)
    (cdgPacketsDue self) (LastPos self) (curr_pos self) (PlayTime self)
    (PlayStartTime self) (ms_per_update self).

Definition set_packetReader (v : CdgPacketReader) (self : cdgPlayer) : cdgPlayer :=
  mkPlayer (base self) (SoundFileName self) (pauseOffsetTime self)
    (PauseStartTime self) (borderColour self) (displayScale self)
    (displayRowOffset self) (displayColOffset self) (displayTileWidth self)
    (displayTileHeight self) v (InternalOffsetTime self) (cdgReadPackets
    self) (cdgPacketsDue self) (LastPos self) (curr_pos self) (PlayTime
    self) (PlayStartTime self) (ms_per_update self).

Definition set_cdgReadPackets (v : Z) (self : cdgPlayer) : cdgPlayer :=
  mkPlayer (base self) (SoundFileName self) (pauseOffsetTime self)
    (PauseStartTime self) (borderColour self) (displayScale self)
    (displayRowOffset self) (displayColOffset self) (displayTileWidth self)
    (displayTileHeight self) (packetReader self) (InternalOffsetTime self) v
    (cdgPacketsDue self) (LastPos self) (curr_pos self) (PlayTime self)
    (PlayStartTime self) (ms_per_update self).

Definition set_cdgPacketsDue (v : Z) (self : cdgPlayer) : cdgPlayer :=
  mkPlayer (base self) (SoundFileName self) (pauseOffsetTime self)
    (PauseStartTime self) (borderColour self) (displayScale self)
    (displayRowOffset self) (displayColOffset self) (displayTileWidth self)
    (displayTileHeight self) (packetReader self) (InternalOffsetTime self)
    (cdgReadPackets self) v (LastPos self) (curr_pos self) (PlayTime self)
    (PlayStartTime self) (ms_per_update self).

Definition set_LastPos (v : Z) (self : cdgPlayer) : cdgPlayer :=
  mkPlayer (base self) (SoundFileName self) (pauseOffsetTime self)
    (PauseStartTime self) (borderColour self) (displayScale self)
    (displayRowOffset self) (displayColOffset self) (displayTileWidth self)
    (displayTileHeight self) (packetReader self) (InternalOffsetTime self)
    (cdgReadPackets self) (cdgPacketsDue self) v (curr_pos self) (PlayTime
    self) (PlayStartTime self) (ms_per_update self).

Definition set_curr_pos (v : Z) (self : cdgPlayer) : cdgPlayer :=
  mkPlayer (base self) (SoundFileName self) (pauseOffsetTime self)
    (PauseStartTime self) (borderColour self) (displayScale self)
    (displayRowOffset self) (displayColOffset self) (displayTileWidth self)
    (displayTileHeight self) (packetReader self) (InternalOffsetTime self)
    (cdgReadPackets self) (cdgPacketsDue self) (LastPos self) v (PlayTime
    self) (PlayStartTime self) (ms_per_update self).

Definition set_PlayTime (v : Z) (self : cdgPlayer) : cdgPlayer :=
  mkPlayer (base self) (SoundFileName self) (pauseOffsetTime self)
    (PauseStartTime self) (borderColour self) (displayScale self)
    (displayRowOffset self) (displayColOffset self) (displayTileWidth self)
    (displayTileHeight self) (packetReader self) (InternalOffsetTime self)
    (cdgReadPackets self) (cdgPacketsDue self) (LastPos self) (curr_pos
    self) v (PlayStartTime self) (ms_per_update self).

Definition set_PlayStartTime (v : Z) (self : cdgPlayer) : cdgPlayer :=
  mkPlayer (base self) (SoundFileName self) (pauseOffsetTime self)
    (PauseStartTime self) (borderColour self) (displayScale self)
    (displayRowOffset self) (displayColOffset self) (displayTileWidth self)
    (displayTileHeight self) (packetReader self) (InternalOffsetTime self)
    (cdgReadPackets self) (cdgPacketsDue self) (LastPos self) (curr_pos
    self) (PlayTime self) v (ms_per_update self).

Definition set_display (scale : Q) (rowOffset colOffset tileWidth tileHeight : Z)
    (self : cdgPlayer) : cdgPlayer :=
  mkPlayer (base self) (SoundFileName self) (pauseOffsetTime self)
    (PauseStartTime self) (borderColour self) scale rowOffset colOffset
    tileWidth tileHeight (packetReader self) (InternalOffsetTime self)
    (cdgReadPackets self) (cdgPacketsDue self) (LastPos self) (curr_pos
    self) (PlayTime self) (PlayStartTime self) (ms_per_update self).

(** ** Python helpers *)

(** [s.lower()] on ASCII letters. *)
Definition lower_ascii (c : ascii) : ascii :=
  let n := nat_of_ascii c in
  if ((65 <=? n) && (n <=? 90))%nat then ascii_of_nat (n + 32) else c.

Fixpoint lower (s : string) : string :=
  match s with
  | EmptyString => EmptyString
  | String c s' => String (lower_ascii c) (lower s')
  end.

(** [s[len(s)-1]]: the last character, an [IndexError] on the empty string. *)
Fixpoint last_char (s : string) : option ascii :=
  match s with
  | EmptyString => None
  | String c EmptyString => Some c
  | String _ s' => last_char s'
  end.

(** Lines 212-213: a name that ends in '.' (tab-completion) gets its
    'cdg'; the empty name has no last character. *)
Definition completeFileName (name : string) : option string :=
  match last_char name with
  | None => None
  | Some c => Some (if Ascii.eqb c "."%char then (name ++ "cdg")%string else name)
  end.

(** [s[:-3]]. *)
Definition drop_last3 (s : string) : string :=
  String.substring 0 (String.length s - 3) s.

(** [l.index(x)]: the first position of [x], or no position ([ValueError]). *)
Fixpoint list_index (x : string) (l : list string) : option nat :=
  match l with
  | [] => None
  | y :: l' =>
      if String.eqb y x then Some O
      else match list_index x l' with
           | Some i => Some (S i)
           | None => None
           end
  end.

(** [sub in s]. *)
Fixpoint contains (sub s : string) : bool :=
  String.prefix sub s ||
  match s with
  | EmptyString => false
  | String _ s' => contains sub s'
  end.

(** [int(x)] on a float: truncation towards zero. *)
Definition int_of_float (x : Q) : Z :=
  if Qle_bool 0 x then Qfloor x else Qceiling x.

(** [min(a, b)] on two floats. *)
Definition float_min (a b : Q) : Q :=
  if Qle_bool a b then a else b.

(** [a > b] on two floats. *)
Definition float_gt (a b : Q) : bool := negb (Qle_bool a b).

Section Player.
Context {pyk : PykPlayerBase} {interp : CdgInterpreter}.

(** *** Locating the sound file *)

(** The loop over [validexts]: the first extension for which
    [lowerFileList.index((file + ext).lower())] succeeds. *)
Fixpoint match_ext (file : string) (lowerFileList : list string)
    (validexts : list string) : option nat :=
  match validexts with
  | [] => None
  | ext :: rest =>
      match list_index (lower (file ++ ext)) lowerFileList with
      | Some i => Some i
      | None => match_ext file lowerFileList rest
      end
  end.

Definition getMp3AudioProperties (os : Os) (filename : string) : option (Z * Z * Z) :=
  match MP3Info os filename with
  | None => None
  | Some (samplerate, mode) =>
      let channels := if contains "stereo" mode then 2 else 1 in
      Some (samplerate, -16, channels)
  end.

Definition getAudioProperties (os : Os) (filename : string) : Z * Z * Z :=
  let '(basename, ext) := path_splitext os filename in
  let ext := lower ext in
  let audioProperties :=
    if String.eqb ext ".mp3" then getMp3AudioProperties os filename else None in
  match audioProperties with
  | None => (44100, -16, 2)
  | Some props => props
  end.

(** *** computeDisplaySize *)

Definition computeDisplaySize (mgr : Manager) (self : cdgPlayer) : cdgPlayer :=
  let '(w, h) := displaySize mgr in
  let winWidth := Z.pos w in
  let winHeight := Z.pos h in
  let scale := float_min (inject_Z winWidth / inject_Z CDG_DISPLAY_WIDTH)%Q
                         (inject_Z winHeight / inject_Z CDG_DISPLAY_HEIGHT)%Q in
  let scale :=
    if String.eqb (zoom_mode (options mgr)) "none" then 1%Q
    else if String.eqb (zoom_mode (options mgr)) "int" then
      if float_gt 1 scale
      then (1 / inject_Z (Qceiling (1 / scale)))%Q
      else inject_Z (int_of_float scale)
    else scale in
  let scaledWidth := int_of_float (scale * inject_Z CDG_DISPLAY_WIDTH)%Q in
  let scaledHeight := int_of_float (scale * inject_Z CDG_DISPLAY_HEIGHT)%Q in
  let rowOffset := (winWidth - scaledWidth) / 2 in
  let colOffset := (winHeight - scaledHeight) / 2 in
  if String.eqb (zoom_mode (options mgr)) "quick"
     || String.eqb (zoom_mode (options mgr)) "int"
  then set_display scale rowOffset colOffset
         (scaledWidth / TILES_PER_ROW) (scaledHeight / TILES_PER_COL) self
  else set_display scale rowOffset colOffset
         (CDG_DISPLAY_WIDTH / TILES_PER_ROW) (CDG_DISPLAY_HEIGHT / TILES_PER_COL) self.

(** *** __init__ *)

(** Lines 221-255: [Returns None] with the nomusic option, the matching
    sound file otherwise; the error path notifies and raises. *)
Definition findSoundFile (os : Os) (mgr : Manager) (fileName : string)
    : outcome (option string) * list event :=
  if negb (nomusic (options mgr)) then
    let validexts := ["wav"; "ogg"; "mp3"]%string in
    let '(path, file) := path_split os (drop_last3 fileName) in
    match listdir os path with
    | None => (Raises OSError, [])
    | Some names =>
        let fileList := filter (fun filename => String.prefix file filename) names in
        let lowerFileList := map lower fileList in
        match match_ext file lowerFileList validexts with
        | Some i => (Returns (Some (path_join os path (nth i fileList ""%string))), [])
        | None =>
            let ErrorString :=
              ("There is no mp3 or ogg file to match " ++ fileName)%string in
            (Raises (StringException "NoSoundFile"), [EvErrorNotify ErrorString])
        end
    end
  else (Returns None, []).

Definition cdgPlayer_init (os : Os) (mgr : Manager) (fileName : option string)
    : outcome cdgPlayer * list event :=
  let b := pykPlayer_init fileName in
  match completeFileName (FileName b) with
  | None => (Raises IndexError, [])
  | Some name =>
      let b := set_FileName name b in
      (* Check the CDG file exists *)
      if negb (isfile os (FileName b)) then
        let ErrorString := ("No such file: " ++ FileName b)%string in
        (Raises (StringException "NoSuchFile"), [EvErrorNotify ErrorString])
      else
        match findSoundFile os mgr (FileName b) with
        | (Raises e, ev) => (Raises e, ev)
        | (Returns sound, ev0) =>
            let ev1 := [EvInitPlayer; EvOpenDisplay; EvDisplayFill (0, 0, 0);
                        EvNewSurface TILE_WIDTH TILE_HEIGHT;
                        EvNewSurface CDG_DISPLAY_WIDTH CDG_DISPLAY_HEIGHT] in
            let reader := OpenReader (file_bytes os (FileName b)) in
            let ev2 := [EvOpenReader (FileName b)] in
            let ev3 :=
              match sound with
              | Some soundFile =>
                  [EvOpenAudio (getAudioProperties os soundFile);
                   EvMusicLoad soundFile; EvMusicSetEndevent]
              | None => []
              end in
            let offset := if negb (nomusic (options mgr))
                          then GetAudioBufferMS mgr else 0 in
            let events := ev0 ++ ev1 ++ ev2 ++ ev3 in
            if fps (options mgr) =? 0 then (Raises ZeroDivisionError, events)
            else
              let self :=
                mkPlayer b sound 0 None None 0%Q 0 0 0 0 reader offset
                         0 0 0 0 0 0
                         (inject_Z 1000 / inject_Z (fps (options mgr)))%Q in
              (Returns (computeDisplaySize mgr self), events)
        end
  end.

(** *** GetPos, doPlay, doPause, doUnpause, doRewind, shutdown *)

Definition GetPos (mgr : Manager) (clk : Clock) (self : cdgPlayer) : Z :=
  if negb (nomusic (options mgr)) then music_get_pos clk
  else if State (base self) =? STATE_PLAYING
       then time_get_ticks clk - PlayStartTime self
       else PlayTime self.

Definition doPlay (mgr : Manager) (clk : Clock) (self : cdgPlayer)
    : cdgPlayer * list event :=
  if negb (nomusic (options mgr)) then (self, [EvMusicPlay])
  else (set_PlayStartTime (time_get_ticks clk) self, []).

Definition doPause (mgr : Manager) (clk : Clock) (self : cdgPlayer)
    : cdgPlayer * list event :=
  if negb (nomusic (options mgr))
  then (set_PauseStartTime (Some (GetPos mgr clk self)) self, [EvMusicPause])
  else (set_PlayTime (time_get_ticks clk - PlayStartTime self) self, []).

Definition doUnpause (mgr : Manager) (clk : Clock) (self : cdgPlayer)
    : outcome cdgPlayer * list event :=
  if negb (nomusic (options mgr)) then
    match PauseStartTime self with
    | None => (Raises AttributeError, [])
    | Some started =>
        (Returns (set_pauseOffsetTime
                    (pauseOffsetTime self + (GetPos mgr clk self - started)) self),
         [EvMusicUnpause])
    end
  else (Returns (set_PlayStartTime (time_get_ticks clk - PlayTime self) self), []).

Definition doRewind (mgr : Manager) (self : cdgPlayer) : cdgPlayer * list event :=
  (* Reset the state of the packet-reading thread *)
  let self := set_cdgReadPackets 0 self in
  let self := set_cdgPacketsDue 0 self in
  let self := set_LastPos 0 self in
  let self := set_PlayTime 0 self in
  let self := set_PlayStartTime 0 self in
  (* No need for the Pause() fix anymore *)
  let self := set_pauseOffsetTime 0 self in
  (* Move file pointer to the beginning of the file *)
  let self := set_packetReader (Rewind (packetReader self)) self in
  if negb (nomusic (options mgr))
  then (self, [EvReaderRewind; EvMusicRewind; EvMusicStop])
  else (self, [EvReaderRewind]).

Definition shutdown (self : cdgPlayer) : cdgPlayer * list event :=
  (set_base (pykPlayer_shutdown (base self)) self, [EvMusicStop]).

(** *** doResize *)

Definition doResize (mgr : Manager) (newSize : Z * Z) (self : cdgPlayer)
    : cdgPlayer * list event :=
  let self := computeDisplaySize mgr self in
  let ev :=
    match borderColour self with
    | Some c => [EvDisplayFill c]
    | None => []
    end in
  (set_packetReader (MarkTilesDirty (packetReader self)) self,
   ev ++ [EvMarkTilesDirty]).

(** *** cdgDisplayUpdate *)

(** The body of the loop over the dirty tiles: the calls it makes and what
    it appends to [rect_list]. *)
Definition blitTile (mgr : Manager) (self : cdgPlayer) (tile : Z * Z)
    : list event * list Rect :=
  let '(row, col) := tile in
  let rect : Rect :=
    (displayTileWidth self * row + displayRowOffset self,
     displayTileHeight self * col + displayColOffset self,
     displayTileWidth self, displayTileHeight self) in
  if String.eqb (zoom_mode (options mgr)) "none" then
    (* The no-scale approach. *)
    ([EvFillTile row col; EvDisplayBlit rect], [rect])
  else if String.eqb (zoom_mode (options mgr)) "quick"
          || String.eqb (zoom_mode (options mgr)) "int" then
    (* The quick-scale approach. *)
    ([EvFillTile row col;
      EvTransformScale (displayTileWidth self) (displayTileHeight self);
      EvDisplayBlit rect], [rect])
  else
    (* The soft-scale approach. *)
    ([EvFillTile row col;
      EvWorkingSurfaceBlit (displayTileWidth self * row)
                           (displayTileHeight self * col)], []).

(** Lines 546-588: nothing when no tile is dirty; otherwise the loop over
    the dirty tiles and the final update of the display. *)
Definition redraw (mgr : Manager) (self : cdgPlayer) (dirtyTiles : list (Z * Z))
    : list event :=
  match dirtyTiles with
  | [] => []   (* If no tiles are dirty, don't bother. *)
  | _ :: _ =>
      let rect_list := flat_map (fun t => snd (blitTile mgr self t)) dirtyTiles in
      flat_map (fun t => fst (blitTile mgr self t)) dirtyTiles ++
      (if String.eqb (zoom_mode (options mgr)) "soft" then
         (* Now scale and blit the whole screen. *)
         [EvTransformRotozoom (displayScale self);
          EvDisplayBlitAt (displayRowOffset self) (displayColOffset self);
          EvDisplayFlip]
       else if (Z.of_nat (List.length rect_list) <? 24) then
         (* Only update those areas which have changed *)
         [EvDisplayUpdate rect_list]
       else [EvDisplayFlip])
  end.

Definition cdgDisplayUpdate (mgr : Manager) (self : cdgPlayer)
    : cdgPlayer * list event :=
  let newBorder := GetBorderColour (packetReader self) in
  let '(self, ev1) :=
    if negb (opt_colour_eqb newBorder (borderColour self)) then
      (* When the border colour changes, blit the whole screen and redraw it. *)
      let self := set_borderColour newBorder self in
      match newBorder with
      | Some c =>
          (set_packetReader (MarkTilesDirty (packetReader self)) self,
           [EvDisplayFill c; EvMarkTilesDirty])
      | None => (self, [])
      end
    else (self, []) in
  let dirtyTiles := GetDirtyTiles (packetReader self) in
  (self, [EvGetBorderColour] ++ ev1 ++ [EvGetDirtyTiles] ++ redraw mgr self dirtyTiles).

(** *** doStuff *)

Definition doStuff (mgr : Manager) (clk : Clock) (self : cdgPlayer)
    : cdgPlayer * list event :=
  let self := set_base (pykPlayer_doStuff (base self)) self in
  (* Check whether the songfile has moved on, if so
     get the relevant CDG data and update the screen. *)
  if State (base self) =? STATE_PLAYING then
    let self :=
      set_curr_pos (GetPos mgr clk self - InternalOffsetTime self
                    - UserOffsetTime (base self) - pauseOffsetTime self) self in
    let self := set_cdgPacketsDue ((curr_pos self * 300) / 1000) self in
    let numPackets := cdgPacketsDue self - cdgReadPackets self in
    let '(self, ev1) :=
      if numPackets >? 0 then
        let '(more, reader) := DoPackets numPackets (packetReader self) in
        let self := set_packetReader reader self in
        let '(self, ev) :=
          if negb more then
            (* End of file. *)
            (set_base (pykPlayer_Close (base self)) self,
             [EvPrint "End of file on cdg."; EvClose])
          else (self, []) in
        (set_cdgReadPackets (cdgReadPackets self + numPackets) self,
         EvDoPackets numPackets :: ev)
      else (self, []) in
    (* Check if any screen updates are now due. *)
    let '(self, ev2) :=
      if float_gt (inject_Z (curr_pos self - LastPos self)) (ms_per_update self) then
        let '(self, ev) := cdgDisplayUpdate mgr self in
        (set_LastPos (curr_pos self) self, ev)
      else (self, []) in
    (self, ev1 ++ ev2)
  else (self, []).

End Player.

(** ** Sequences of operations *)

(** The operations a caller performs on a player; each carries what the
    environment answers while it runs. *)
Inductive operation : Type :=
| OpPlay (clk : Clock)
| OpPause (clk : Clock)
| OpUnpause (clk : Clock)
| OpResize (newSize : Z * Z)
| OpPoll (clk : Clock)
| OpDisplayUpdate
| OpShutdown
| OpRewind.

Definition isRewind (op : operation) : bool :=
  match op with
  | OpRewind => true
  | _ => false
  end.

Record PollResult : Type := mkPollResult {
  seen : option Z;
  after : cdgPlayer;
  calls : list event
}.

Section Runs.
Context {pyk : PykPlayerBase} {interp : CdgInterpreter}.

(** One operation.  A method that raises leaves the player as it was. *)
Definition step (mgr : Manager) (op : operation) (self : cdgPlayer)
    : cdgPlayer * list event :=
  match op with
  | OpPlay clk => doPlay mgr clk self
  | OpPause clk => doPause mgr clk self
  | OpUnpause clk =>
      match doUnpause mgr clk self with
      | (Returns self', ev) => (self', ev)
      | (Raises _, ev) => (self, ev)
      end
  | OpResize newSize => doResize mgr newSize self
  | OpPoll clk => doStuff mgr clk self
  | OpDisplayUpdate => cdgDisplayUpdate mgr self
  | OpShutdown => shutdown self
  | OpRewind => doRewind mgr self
  end.

(** The players after each operation of a sequence, oldest first. *)
Fixpoint run (ops : list (Manager * operation)) (self : cdgPlayer) : list cdgPlayer :=
  match ops with
  | [] => []
  | (mgr, op) :: rest =>
      let self' := fst (step mgr op self) in
      self' :: run rest self'
  end.

(** The song position a poll computes (line 386), after the base class
    has had its turn. *)
Definition pollPosition (mgr : Manager) (clk : Clock) (self : cdgPlayer) : Z :=
  let self := set_base (pykPlayer_doStuff (base self)) self in
  GetPos mgr clk self - InternalOffsetTime self
  - UserOffsetTime (base self) - pauseOffsetTime self.

(** Whether a poll finds the player in the playing state (line 385). *)
Definition pollPlaying (self : cdgPlayer) : bool :=
  State (pykPlayer_doStuff (base self)) =? STATE_PLAYING.

(** A sequence of polls: for each poll, the song position it saw (when the
    player was playing), the player it left and the calls it made. *)
Fixpoint polls (mgr : Manager) (clks : list Clock) (self : cdgPlayer)
    : list PollResult :=
  match clks with
  | [] => []
  | clk :: rest =>
      let '(self', events) := doStuff mgr clk self in
      mkPollResult
        (if pollPlaying self then Some (pollPosition mgr clk self) else None)
        self' events
        :: polls mgr rest self'
  end.

End Runs.

(** The song positions seen by the polls of a sequence. *)
Definition positionsSeen (l : list PollResult) : list Z :=
  flat_map (fun r => match seen r with Some e => [e] | None => [] end) l.

(** Every element of the list is more than [ms] past the one before it,
    the first one past [last]. *)
Fixpoint spaced (ms : Q) (last : Z) (l : list Z) : Prop :=
  match l with
  | [] => True
  | x :: rest => (ms < inject_Z (x - last))%Q /\ spaced ms x rest
  end.

(** ** Reading the list of calls *)

(** The packet counts asked of [DoPackets], one entry per call. *)
Definition readerRequests (events : list event) : list Z :=
  flat_map (fun e => match e with EvDoPackets n => [n] | _ => [] end) events.

(** The messages passed to the error callback, one entry per call. *)
Definition errorsNotified (events : list event) : list string :=
  flat_map (fun e => match e with EvErrorNotify s => [s] | _ => [] end) events.

(** Whether [cdgDisplayUpdate] ran: it always starts by asking the reader
    for the border colour, and nothing else asks. *)
Definition displayUpdates (events : list event) : nat :=
  List.length (filter (fun e => match e with EvGetBorderColour => true | _ => false end)
                      events).

(** Whether the player was closed, which is what a poll does about the end
    of the CDG file. *)
Definition closed (events : list event) : bool :=
  existsb (fun e => match e with EvClose => true | _ => false end) events.

(** The song positions at which the polls of a sequence refreshed the
    screen. *)
Definition refreshPositions (l : list PollResult) : list Z :=
  flat_map (fun r => if (0 <? displayUpdates (calls r))%nat
                     then [curr_pos (after r)] else []) l.

(** A list of integers that never goes down. *)
Fixpoint nondecreasing (l : list Z) : Prop :=
  match l with
  | x :: (y :: _) as rest => x <= y /\ nondecreasing rest
  | _ => True
  end.

(** The consumed count was raised by no more than the number of packets
    the reader delivered in between. *)
Definition countWithinDelivered (before after : cdgPlayer) : Prop :=
  cdgReadPackets after - cdgReadPackets before
  <= cdgDelivered (packetReader after) - cdgDelivered (packetReader before).

(** After every poll of the sequence the consumed count is at most the
    packets due at position [emax]. *)
Definition consumedWithinDue (emax : Z) (l : list PollResult) : Prop :=
  Forall (fun r => cdgReadPackets (after r) <= emax * 300 / 1000) l.

(** ** A sample installation

    One concrete environment, used to run the definitions: a disk with a
    short CDG file and its sound file, a base class that does nothing
    between polls, and an interpreter that knows the border preset. *)

Definition STATE_CLOSING_sample : Z := 4.

Definition samplePyk : PykPlayerBase := {|
  STATE_PLAYING := 1;
  pykPlayer_init := fun fileName =>
    mkPykPlayer 0 (match fileName with Some f => f | None => "/k/song.cdg"%string end) 0;
  pykPlayer_doStuff := fun b => b;
  pykPlayer_Close := fun b => mkPykPlayer STATE_CLOSING_sample (FileName b) (UserOffsetTime b);
  pykPlayer_shutdown := fun b => mkPykPlayer 5 (FileName b) (UserOffsetTime b)
|}.

(** Instruction 2 (border preset) takes the border colour index from the
    low 4 bits of the first data byte and dirties every tile. *)
Definition sampleInterpreter : CdgInterpreter := {|
  cdgPacketProcess := fun packet s =>
    if Z.land (nth 1 packet 0) 63 =? 2
    then mkScreen (cdgColourTable s) (cdgPixelColours s) (cdgPresetColourIndex s)
                  (Some (Z.land (nth 4 packet 0) 15)) allTiles
    else s
|}.

Definition samplePacket (instruction data0 : Z) : list Z :=
  [9; instruction; 0; 0; data0] ++ repeat 0 19.

(** Two whole packets and five stray bytes. *)
Definition sampleBytes : list Z :=
  samplePacket 2 3 ++ samplePacket 1 0 ++ [0; 0; 0; 0; 0].

(** [s] cut at its last [sep]: what is before it and what is after it. *)
Fixpoint cut_last (sep : ascii) (s : string) : option (string * string) :=
  match s with
  | EmptyString => None
  | String c s' =>
      match cut_last sep s' with
      | Some (h, t) => Some (String c h, t)
      | None => if Ascii.eqb c sep then Some (EmptyString, s') else None
      end
  end.

Definition sampleOs : Os := {|
  isfile := fun f => String.eqb f "/k/song.cdg";
  listdir := fun d =>
    if String.eqb d "/k" then Some ["other.txt"; "song.cdg"; "song.MP3"]%string else None;
  path_split := fun s =>
    match cut_last "/" s with Some ht => ht | None => (EmptyString, s) end;
  path_join := fun a b => (a ++ "/" ++ b)%string;
  path_splitext := fun s =>
    match cut_last "." s with
    | Some (h, t) => (h, String "." t)
    | None => (s, EmptyString)
    end;
  MP3Info := fun _ => Some (44100, "joint stereo"%string);
  file_bytes := fun _ => sampleBytes
|}.

Definition sampleManager : Manager :=
  mkManager (mkOptions false 60 "quick") (640%positive, 480%positive) 100.

Definition silentManager : Manager :=
  mkManager (mkOptions true 25 "soft") (294%positive, 204%positive) 100.

(** What [pykPlayer.Play] leaves behind: the playing state. *)
Definition nowPlaying (self : cdgPlayer) : cdgPlayer :=
  set_base (mkPykPlayer 1 (FileName (base self)) (UserOffsetTime (base self))) self.

(** The player [cdgPlayer("/k/song.cdg")] builds, or a blank one should
    the construction fail. *)
Definition samplePlayer : cdgPlayer :=
  match cdgPlayer_init (pyk := samplePyk) sampleOs sampleManager (Some "/k/song.cdg"%string) with
  | (Returns self, _) => self
  | (Raises _, _) =>
      mkPlayer (mkPykPlayer 0 EmptyString 0) None 0 None None 0%Q 0 0 0 0
               (OpenReader []) 0 0 0 0 0 0 0 0%Q
  end.

(** The sample player once [Play] was called. *)
Definition playingPlayer : cdgPlayer := nowPlaying samplePlayer.

(** A poll right at the start of the song: the mixer says 0 ms, and the
    100 ms of audio buffer are yet to be heard. *)
Definition earlyPolls : list PollResult :=
  polls (pyk := samplePyk) (interp := sampleInterpreter)
        sampleManager [mkClock 0 0] playingPlayer.

(** The sample player after a poll 4 ms into the song, which decodes the
    border preset and is too early to refresh the screen. *)
Definition borderPending : cdgPlayer :=
  fst (doStuff (pyk := samplePyk) (interp := sampleInterpreter)
               sampleManager (mkClock 104 0) playingPlayer).

(** A session without a rewind. *)
Definition sampleSession : list (Manager * operation) :=
  [(sampleManager, OpPlay (mkClock 0 0));
   (sampleManager, OpPoll (mkClock 104 0));
   (sampleManager, OpPause (mkClock 105 0));
   (sampleManager, OpUnpause (mkClock 105 0));
   (sampleManager, OpResize (800, 600));
   (sampleManager, OpDisplayUpdate);
   (sampleManager, OpPoll (mkClock 130 0));
   (sampleManager, OpShutdown)].

(** ** More ways to read a player and its calls *)

(** What the base class does to [State] around the methods ([Play],
    [Pause]): the same player in another state. *)
Definition setState (st : Z) (self : cdgPlayer) : cdgPlayer :=
  set_base (mkPykPlayer st (FileName (base self)) (UserOffsetTime (base self))) self.

(** The tiles handed to [FillTile], one entry per call. *)
Definition tilesFilled (events : list event) : list (Z * Z) :=
  flat_map (fun e => match e with EvFillTile row col => [(row, col)] | _ => [] end)
           events.

(** The colours handed to [manager.display.fill], one entry per call. *)
Definition fills (events : list event) : list colour :=
  flat_map (fun e => match e with EvDisplayFill c => [c] | _ => [] end) events.

(** The calls of [pygame.display.flip]. *)
Definition flips (events : list event) : nat :=
  List.length (filter (fun e => match e with EvDisplayFlip => true | _ => false end)
                      events).

(** The rectangle lists handed to [pygame.display.update], one entry per
    call. *)
Definition partialUpdates (events : list event) : list (list Rect) :=
  flat_map (fun e => match e with EvDisplayUpdate rects => [rects] | _ => [] end)
           events.

(** The calls of [MarkTilesDirty]. *)
Definition marksAllDirty (events : list event) : nat :=
  List.length (filter (fun e => match e with EvMarkTilesDirty => true | _ => false end)
                      events).


(** The rectangle [cdgDisplayUpdate] blits a tile to, when it blits to the
    display (lines 560-562 and 569-571). *)
Definition tileRect (self : cdgPlayer) (tile : Z * Z) : Rect :=
  let '(row, col) := tile in
  (displayTileWidth self * row + displayRowOffset self,
   displayTileHeight self * col + displayColOffset self,
   displayTileWidth self, displayTileHeight self).

(** The zoom modes that blit every tile straight to the display. *)
Definition directZoom (mgr : Manager) : Prop :=
  zoom_mode (options mgr) = "none"%string \/
  zoom_mode (options mgr) = "quick"%string \/
  zoom_mode (options mgr) = "int"%string.

(** The player a sequence of operations ends with. *)
Definition finalPlayer (l : list cdgPlayer) (start : cdgPlayer) : cdgPlayer :=
  last l start.

(** The player is not ahead of the reader by less than nothing: the packets
    it counts as consumed are at least those the reader delivered. *)
Definition countCoversDelivered (self : cdgPlayer) : Prop :=
  cdgDelivered (packetReader self) <= cdgReadPackets self.

(** A disk whose CDG file has no sound file beside it. *)
Definition lonelyOs : Os := {|
  isfile := fun f => String.eqb f "/q/solo.cdg";
  listdir := fun d =>
    if String.eqb d "/q" then Some ["solo.cdg"; "solo.txt"; "duet.mp3"]%string else None;
  path_split := path_split sampleOs;
  path_join := path_join sampleOs;
  path_splitext := path_splitext sampleOs;
  MP3Info := fun _ => None;
  file_bytes := fun _ => []
|}.

(** A manager asked for 0 frames per second. *)
Definition stillManager : Manager :=
  mkManager (mkOptions false 0 "quick") (640%positive, 480%positive) 100.

(** A window smaller than the CDG picture, zoomed by whole steps. *)
Definition smallManager : Manager :=
  mkManager (mkOptions false 60 "int") (200%positive, 100%positive) 100.

(** The clock readings of five polls. *)
Definition sampleClocks : list Clock :=
  [mkClock 100 0; mkClock 104 0; mkClock 104 0; mkClock 120 0; mkClock 150 0].

(** * Properties *)

(** ** Small facts about the helpers *)

Lemma colour_eqb_eq (a b : colour) : colour_eqb a b = true <-> a = b.
Proof.
  destruct a as [[r1 g1] b1], b as [[r2 g2] b2]; unfold colour_eqb.
  rewrite !andb_true_iff, !Z.eqb_eq. split.
  - intros [[-> ->] ->]; reflexivity.
  - intros H; injection H as -> -> ->; auto.
Qed.

Lemma opt_colour_eqb_eq (a b : option colour) : opt_colour_eqb a b = true <-> a = b.
Proof.
  destruct a as [x|], b as [y|]; simpl; try (split; congruence).
  rewrite colour_eqb_eq. split; congruence.
Qed.

Lemma float_gt_lt (a b : Q) : float_gt a b = true <-> (b < a)%Q.
Proof.
  unfold float_gt. rewrite negb_true_iff. split.
  - intros H. apply Qnot_le_lt. intros Hle.
    apply Qle_bool_iff in Hle. congruence.
  - intros H. destruct (Qle_bool a b) eqn:E; [|reflexivity].
    apply Qle_bool_iff in E. exfalso. exact (Qlt_not_le _ _ H E).
Qed.

Lemma In_allTiles (row col : Z) :
  In (row, col) allTiles <-> (0 <= row < TILES_PER_ROW /\ 0 <= col < TILES_PER_COL).
Proof.
  unfold allTiles, TILES_PER_ROW, TILES_PER_COL. simpl. split.
  - intros H.
    repeat (destruct H as [H|H]; [injection H as <- <-; lia|]).
    contradiction.
  - intros [Hr Hc].
    assert (row = 0 \/ row = 1 \/ row = 2 \/ row = 3 \/ row = 4 \/ row = 5) as Hr' by lia.
    assert (col = 0 \/ col = 1 \/ col = 2 \/ col = 3) as Hc' by lia.
    destruct Hc' as [->|[->|[->| ->]]];
      destruct Hr' as [->|[->|[->|[->|[->| ->]]]]]; tauto.
Qed.

(** ** The packet reader *)

Section ReaderFacts.
Context {interp : CdgInterpreter}.

Lemma ReadNext_packet (r r' : CdgPacketReader) (packet : list Z) :
  ReadNext r = (Some packet, r') ->
  cdgDelivered r' = cdgDelivered r + 1 /\ cdgSource r' = cdgSource r /\
  List.length packet = 24%nat.
Proof.
  unfold ReadNext.
  destruct (List.length (firstn 24 (cdgUnread r)) =? 24)%nat eqn:E; [|discriminate].
  intros H; injection H as <- <-. simpl.
  apply Nat.eqb_eq in E. auto.
Qed.

Lemma ReadNext_end (r r' : CdgPacketReader) :
  ReadNext r = (None, r') ->
  cdgDelivered r' = cdgDelivered r /\ cdgSource r' = cdgSource r.
Proof.
  unfold ReadNext.
  destruct (List.length (firstn 24 (cdgUnread r)) =? 24)%nat; [discriminate|].
  intros H; injection H as <-. simpl. auto.
Qed.

Lemma applyPacket_frame (packet : list Z) (r : CdgPacketReader) :
  cdgDelivered (applyPacket packet r) = cdgDelivered r /\
  cdgSource (applyPacket packet r) = cdgSource r /\
  cdgUnread (applyPacket packet r) = cdgUnread r.
Proof. unfold applyPacket. destruct (isCdgCommand packet); simpl; auto. Qed.

(** [DoPackets] delivers what it was asked for exactly when it answers
    [true]; when it answers [false] it delivered fewer. *)
Lemma DoPackets_loop_delivered (n : nat) :
  forall (r r' : CdgPacketReader) (more : bool),
    DoPackets_loop n r = (more, r') ->
    if more
    then cdgDelivered r' = cdgDelivered r + Z.of_nat n
    else cdgDelivered r <= cdgDelivered r' < cdgDelivered r + Z.of_nat n.
Proof.
  induction n as [|n IH]; intros r r' more H.
  - simpl in H. injection H as <- <-. lia.
  - cbn [DoPackets_loop] in H.
    destruct (ReadNext r) as [[packet|] r1] eqn:E.
    + apply ReadNext_packet in E. destruct E as [E _].
      apply IH in H.
      destruct (applyPacket_frame packet r1) as [F _].
      rewrite F in H. destruct more; lia.
    + injection H as <- <-. apply ReadNext_end in E. lia.
Qed.

Lemma DoPackets_delivered (numPackets : Z) (r r' : CdgPacketReader) (more : bool) :
  0 < numPackets ->
  DoPackets numPackets r = (more, r') ->
  if more
  then cdgDelivered r' = cdgDelivered r + numPackets
  else cdgDelivered r <= cdgDelivered r' < cdgDelivered r + numPackets.
Proof.
  intros Hpos H. unfold DoPackets in H.
  apply DoPackets_loop_delivered in H.
  rewrite Z2Nat.id in H by lia. exact H.
Qed.

End ReaderFacts.

(** ** Reading lists of calls *)

Lemma readerRequests_app (a b : list event) :
  readerRequests (a ++ b) = readerRequests a ++ readerRequests b.
Proof. unfold readerRequests. apply flat_map_app. Qed.

Lemma closed_app (a b : list event) : closed (a ++ b) = closed a || closed b.
Proof. unfold closed. apply existsb_app. Qed.

Lemma displayUpdates_app (a b : list event) :
  displayUpdates (a ++ b) = (displayUpdates a + displayUpdates b)%nat.
Proof. unfold displayUpdates. rewrite filter_app, length_app. reflexivity. Qed.

(** ** The display update *)

Section DisplayFacts.
Context {pyk : PykPlayerBase} {interp : CdgInterpreter}.

(** The tile loop talks to the reader only through [FillTile]. *)
Lemma blit_calls_quiet (mgr : Manager) (self : cdgPlayer) (tiles : list (Z * Z)) :
  let events := flat_map (fun t => fst (blitTile mgr self t)) tiles in
  readerRequests events = [] /\ closed events = false /\ displayUpdates events = 0%nat.
Proof.
  induction tiles as [|[row col] tiles IH]; [simpl; auto|].
  cbn zeta in IH |- *. cbn [flat_map].
  rewrite readerRequests_app, closed_app, displayUpdates_app.
  destruct IH as (-> & -> & ->).
  unfold blitTile.
  destruct (String.eqb (zoom_mode (options mgr)) "none");
    [|destruct (String.eqb (zoom_mode (options mgr)) "quick"
               || String.eqb (zoom_mode (options mgr)) "int")];
    simpl; auto.
Qed.

(** Each dirty tile is filled from the reader. *)
Lemma blit_fills (mgr : Manager) (self : cdgPlayer) (tiles : list (Z * Z)) (row col : Z) :
  In (row, col) tiles ->
  In (EvFillTile row col) (flat_map (fun t => fst (blitTile mgr self t)) tiles).
Proof.
  intros H. apply in_flat_map. exists (row, col). split; [exact H|].
  unfold blitTile.
  destruct (String.eqb (zoom_mode (options mgr)) "none");
    [|destruct (String.eqb (zoom_mode (options mgr)) "quick"
               || String.eqb (zoom_mode (options mgr)) "int")];
    simpl; auto.
Qed.

Lemma redraw_quiet (mgr : Manager) (self : cdgPlayer) (tiles : list (Z * Z)) :
  readerRequests (redraw mgr self tiles) = [] /\
  closed (redraw mgr self tiles) = false /\
  displayUpdates (redraw mgr self tiles) = 0%nat.
Proof.
  unfold redraw. destruct tiles as [|t tiles]; [simpl; auto|].
  rewrite readerRequests_app, closed_app, displayUpdates_app.
  destruct (blit_calls_quiet mgr self (t :: tiles)) as (Q1 & Q2 & Q3).
  cbn zeta in Q1, Q2, Q3. rewrite Q1, Q2, Q3.
  destruct (String.eqb (zoom_mode (options mgr)) "soft");
    [|match goal with
      | |- context [if ?c then [EvDisplayUpdate _] else _] => destruct c
      end];
    auto.
Qed.

Lemma redraw_fills (mgr : Manager) (self : cdgPlayer) (tiles : list (Z * Z))
    (row col : Z) :
  In (row, col) tiles -> In (EvFillTile row col) (redraw mgr self tiles).
Proof.
  intros H. unfold redraw. destruct tiles as [|t tiles]; [contradiction|].
  apply in_or_app. left. apply blit_fills. exact H.
Qed.

(** What the display update leaves alone, and what it says. *)
Lemma cdgDisplayUpdate_frame (mgr : Manager) (self : cdgPlayer) :
  let result := cdgDisplayUpdate mgr self in
  (base (fst result) = base self /\
   cdgReadPackets (fst result) = cdgReadPackets self /\
   cdgPacketsDue (fst result) = cdgPacketsDue self /\
   LastPos (fst result) = LastPos self /\
   curr_pos (fst result) = curr_pos self /\
   ms_per_update (fst result) = ms_per_update self) /\
  (cdgDelivered (packetReader (fst result)) = cdgDelivered (packetReader self) /\
   cdgUnread (packetReader (fst result)) = cdgUnread (packetReader self) /\
   cdgSource (packetReader (fst result)) = cdgSource (packetReader self)) /\
  (readerRequests (snd result) = [] /\
   closed (snd result) = false /\
   displayUpdates (snd result) = 1%nat).
Proof.
  unfold cdgDisplayUpdate.
  destruct (negb (opt_colour_eqb (GetBorderColour (packetReader self)) (borderColour self)));
    [destruct (GetBorderColour (packetReader self)) as [c|]|].
  all: cbn [fst snd]; (split; [repeat split|split; [repeat split|]]).
  all: repeat rewrite ?readerRequests_app, ?closed_app, ?displayUpdates_app.
  all: match goal with
       | |- context [redraw ?m ?s ?l] =>
           destruct (redraw_quiet m s l) as (Q1 & Q2 & Q3); rewrite Q1, Q2, Q3
       end.
  all: auto.
Qed.

End DisplayFacts.

(** ** One poll *)

(** Reading an attribute back from a player that was just updated. *)
Ltac project_player :=
  cbn [curr_pos set_curr_pos cdgPacketsDue set_cdgPacketsDue cdgReadPackets
       set_cdgReadPackets packetReader set_packetReader base set_base
       LastPos set_LastPos ms_per_update InternalOffsetTime pauseOffsetTime
       fst snd].

(** Replaces the outcome of a display update by what
    [cdgDisplayUpdate_frame] says about it. *)
Ltac open_display_update :=
  match goal with
  | |- context [cdgDisplayUpdate ?m ?s] =>
      let F := fresh "F" in
      pose proof (cdgDisplayUpdate_frame m s) as F; cbv zeta in F;
      destruct (cdgDisplayUpdate m s) as [self' ev]; cbn [fst snd] in F |- *;
      destruct F as ((F1 & F2 & F3 & F4 & F5 & F6) & (G1 & G2 & G3) & (E1 & E2 & E3));
      cbn in F1, F2, F3, F4, F5, F6, G1
  end.

Section PollFacts.
Context {pyk : PykPlayerBase} {interp : CdgInterpreter}.

(** Outside the playing state a poll only lets the base class act. *)
Lemma doStuff_idle (mgr : Manager) (clk : Clock) (self : cdgPlayer) :
  pollPlaying self = false ->
  doStuff mgr clk self = (set_base (pykPlayer_doStuff (base self)) self, []).
Proof.
  unfold pollPlaying, doStuff. cbn [base set_base]. intros ->. reflexivity.
Qed.

(** Everything a poll in the playing state does, attribute by attribute. *)
Lemma doStuff_playing (mgr : Manager) (clk : Clock) (self : cdgPlayer) :
  pollPlaying self = true ->
  let pos := pollPosition mgr clk self in
  let target := pos * 300 / 1000 in
  let pending := target - cdgReadPackets self in
  let answer := DoPackets pending (packetReader self) in
  let refresh := float_gt (inject_Z (pos - LastPos self)) (ms_per_update self) in
  let result := doStuff mgr clk self in
  (curr_pos (fst result) = pos /\
   cdgPacketsDue (fst result) = target /\
   cdgReadPackets (fst result) =
     (if pending >? 0 then cdgReadPackets self + pending else cdgReadPackets self) /\
   LastPos (fst result) = (if refresh then pos else LastPos self) /\
   ms_per_update (fst result) = ms_per_update self) /\
  (base (fst result) =
     (if (pending >? 0) && negb (fst answer)
      then pykPlayer_Close (pykPlayer_doStuff (base self))
      else pykPlayer_doStuff (base self)) /\
   cdgDelivered (packetReader (fst result)) =
     (if pending >? 0 then cdgDelivered (snd answer)
      else cdgDelivered (packetReader self))) /\
  (readerRequests (snd result) = (if pending >? 0 then [pending] else []) /\
   closed (snd result) = (pending >? 0) && negb (fst answer) /\
   displayUpdates (snd result) = (if refresh then 1%nat else 0%nat)).
Proof.
  intros Hplay. cbv zeta.
  unfold doStuff, pollPosition. unfold pollPlaying in Hplay.
  cbn [base set_base]. rewrite Hplay. project_player.
  set (pos := GetPos mgr clk _ - _ - _ - _).
  set (pending := pos * 300 / 1000 - cdgReadPackets self).
  destruct (pending >? 0) eqn:Hp;
    [destruct (DoPackets pending (packetReader self)) as [more reader] eqn:Hd;
     destruct more|];
    cbn [negb andb fst snd]; project_player.
  all: match goal with
       | |- context [float_gt ?a ?b] => destruct (float_gt a b)
       end.
  all: try open_display_update.
  all: project_player.
  all: rewrite ?readerRequests_app, ?closed_app, ?displayUpdates_app.
  all: repeat split; cbn; try congruence.
  all: match goal with
       | E1 : readerRequests _ = _, E2 : closed _ = _, E3 : displayUpdates _ = _ |- _ =>
           rewrite ?E1, ?E2, ?E3
       end; auto.
Qed.

End PollFacts.

(** ** The tile grid (module constants) *)

(** C9: the visible 294x204 area is cut into a fixed grid of 6 tiles across
    by 4 tiles down; the tile width and height computed from the constants
    are exactly 49 and 51 pixels, the divisions leave no remainder, and
    there are 24 tiles in all, one for each position of the grid. *)
Theorem tile_grid_exact :
  CDG_DISPLAY_WIDTH = 294 /\ CDG_DISPLAY_HEIGHT = 204 /\
  TILES_PER_ROW = 6 /\ TILES_PER_COL = 4 /\
  TILE_WIDTH = 49 /\ TILE_HEIGHT = 51 /\
  CDG_DISPLAY_WIDTH mod TILES_PER_ROW = 0 /\
  CDG_DISPLAY_HEIGHT mod TILES_PER_COL = 0 /\
  TILE_WIDTH * TILES_PER_ROW = CDG_DISPLAY_WIDTH /\
  TILE_HEIGHT * TILES_PER_COL = CDG_DISPLAY_HEIGHT /\
  TILES_PER_ROW * TILES_PER_COL = 24 /\
  List.length allTiles = 24%nat /\ NoDup allTiles /\
  (forall row col,
     In (row, col) allTiles <->
     0 <= row < TILES_PER_ROW /\ 0 <= col < TILES_PER_COL).
Proof.
  do 12 (split; [reflexivity|]). split; [|exact In_allTiles].
  unfold allTiles. cbn.
  repeat (constructor; [cbn; intuition discriminate|]).
  constructor.
Qed.

(** ** Polling: catching up with the song *)

Section PollClaims.
Context {pyk : PykPlayerBase} {interp : CdgInterpreter}.

(** C1: on every poll in the playing state the target packet count is
    floor(position * 300 / 1000); with pending the target minus the packets
    consumed so far, a pending count that is zero or negative requests no
    packets and leaves the consumed count (and the reader) where it was,
    and a positive one is requested from the reader in exactly one call of
    exactly that many packets. *)
Theorem doStuff_requests_pending (mgr : Manager) (clk : Clock) (self : cdgPlayer) :
  pollPlaying self = true ->
  let pos := pollPosition mgr clk self in
  let target := pos * 300 / 1000 in
  let pending := target - cdgReadPackets self in
  let result := doStuff mgr clk self in
  1000 * target <= pos * 300 < 1000 * (target + 1) /\
  cdgPacketsDue (fst result) = target /\
  (pending <= 0 ->
     readerRequests (snd result) = [] /\
     cdgReadPackets (fst result) = cdgReadPackets self /\
     cdgDelivered (packetReader (fst result)) = cdgDelivered (packetReader self)) /\
  (0 < pending -> readerRequests (snd result) = [pending]).
Proof.
  intros Hplay pos target pending result.
  destruct (doStuff_playing mgr clk self Hplay)
    as ((_ & Hdue & Hread & _) & (_ & Hdel) & (Hreq & _)).
  cbv zeta in Hdue, Hread, Hdel, Hreq.
  fold pos target pending result in Hdue, Hread, Hdel, Hreq.
  split; [|split; [exact Hdue|split]].
  - unfold target.
    pose proof (Z.mul_div_le (pos * 300) 1000 ltac:(lia)).
    pose proof (Z.mul_succ_div_gt (pos * 300) 1000 ltac:(lia)).
    lia.
  - intros Hle. assert ((pending >? 0) = false) as E by lia.
    rewrite E in Hread, Hdel, Hreq. auto.
  - intros Hlt. assert ((pending >? 0) = true) as E by lia.
    rewrite E in Hreq. exact Hreq.
Qed.

(** C2, as the code has it: when the reader signals the end of the stream
    before all pending packets are delivered, the poll closes the player,
    which a poll whose packets were all delivered does not do; either way
    the consumed-packet count is raised by the full number of packets
    requested, so that at the end of the stream it exceeds the number of
    packets actually read. *)
Theorem doStuff_end_of_stream (mgr : Manager) (clk : Clock) (self : cdgPlayer) :
  pollPlaying self = true ->
  let pending := pollPosition mgr clk self * 300 / 1000 - cdgReadPackets self in
  0 < pending ->
  let answer := DoPackets pending (packetReader self) in
  let result := doStuff mgr clk self in
  cdgReadPackets (fst result) = cdgReadPackets self + pending /\
  if fst answer
  then closed (snd result) = false /\
       base (fst result) = pykPlayer_doStuff (base self) /\
       cdgDelivered (packetReader (fst result))
         = cdgDelivered (packetReader self) + pending
  else closed (snd result) = true /\
       base (fst result) = pykPlayer_Close (pykPlayer_doStuff (base self)) /\
       cdgDelivered (packetReader self)
         <= cdgDelivered (packetReader (fst result))
         < cdgDelivered (packetReader self) + pending.
Proof.
  intros Hplay pending Hpos answer result.
  destruct (doStuff_playing mgr clk self Hplay)
    as ((_ & _ & Hread & _) & (Hbase & Hdel) & (_ & Hclosed & _)).
  cbv zeta in Hread, Hbase, Hdel, Hclosed.
  fold pending answer result in Hread, Hbase, Hdel, Hclosed.
  assert ((pending >? 0) = true) as E by lia.
  rewrite E in Hread, Hbase, Hdel, Hclosed. cbn [andb] in Hbase, Hclosed.
  split; [exact Hread|].
  pose proof (DoPackets_delivered pending (packetReader self) (snd answer) (fst answer) Hpos)
    as Hcount.
  rewrite <- surjective_pairing in Hcount. specialize (Hcount eq_refl).
  rewrite Hdel.
  destruct (fst answer); cbn [negb] in Hbase, Hclosed; auto.
Qed.

End PollClaims.

(** ** What the other methods leave alone *)

Section FrameFacts.
Context {pyk : PykPlayerBase} {interp : CdgInterpreter}.

Lemma computeDisplaySize_frame (mgr : Manager) (self : cdgPlayer) :
  cdgReadPackets (computeDisplaySize mgr self) = cdgReadPackets self /\
  packetReader (computeDisplaySize mgr self) = packetReader self /\
  borderColour (computeDisplaySize mgr self) = borderColour self /\
  ms_per_update (computeDisplaySize mgr self) = ms_per_update self.
Proof.
  unfold computeDisplaySize. destruct (displaySize mgr) as [w h].
  destruct (String.eqb (zoom_mode (options mgr)) "quick"
            || String.eqb (zoom_mode (options mgr)) "int");
    cbn; auto.
Qed.

(** The consumed count after a poll: the larger of the old count and the
    packets due. *)
Lemma doStuff_consumed (mgr : Manager) (clk : Clock) (self : cdgPlayer) :
  cdgReadPackets (fst (doStuff mgr clk self)) =
  if pollPlaying self
  then Z.max (cdgReadPackets self) (pollPosition mgr clk self * 300 / 1000)
  else cdgReadPackets self.
Proof.
  destruct (pollPlaying self) eqn:Hplay.
  - destruct (doStuff_playing mgr clk self Hplay) as ((_ & _ & Hread & _) & _).
    cbv zeta in Hread. rewrite Hread.
    destruct (pollPosition mgr clk self * 300 / 1000 - cdgReadPackets self >? 0) eqn:E; lia.
  - rewrite (doStuff_idle mgr clk self Hplay). reflexivity.
Qed.

(** When a poll refreshes the screen, and what that does to [LastPos]. *)
Lemma doStuff_refresh (mgr : Manager) (clk : Clock) (self : cdgPlayer) :
  let pos := pollPosition mgr clk self in
  let refresh :=
    pollPlaying self
    && float_gt (inject_Z (pos - LastPos self)) (ms_per_update self) in
  let result := doStuff mgr clk self in
  displayUpdates (snd result) = (if refresh then 1%nat else 0%nat) /\
  LastPos (fst result) = (if refresh then pos else LastPos self) /\
  ms_per_update (fst result) = ms_per_update self /\
  (refresh = true -> curr_pos (fst result) = pos).
Proof.
  cbv zeta. destruct (pollPlaying self) eqn:Hplay; cbn [andb].
  - destruct (doStuff_playing mgr clk self Hplay)
      as ((Hcur & _ & _ & Hlast & Hms) & _ & (_ & _ & Hupd)).
    cbv zeta in Hcur, Hlast, Hms, Hupd. auto.
  - rewrite (doStuff_idle mgr clk self Hplay). cbn. repeat split. discriminate.
Qed.

(** Apart from the rewind, no operation lowers the consumed count. *)
Lemma step_consumed (mgr : Manager) (op : operation) (self : cdgPlayer) :
  isRewind op = false ->
  cdgReadPackets self <= cdgReadPackets (fst (step mgr op self)).
Proof.
  destruct op; cbn [isRewind step]; intros Hop; try discriminate.
  - unfold doPlay. destruct (negb (nomusic (options mgr))); cbn; lia.
  - unfold doPause. destruct (negb (nomusic (options mgr))); cbn; lia.
  - unfold doUnpause. destruct (negb (nomusic (options mgr)));
      [destruct (PauseStartTime self)|]; cbn; lia.
  - unfold doResize. cbn [fst cdgReadPackets set_packetReader].
    destruct (computeDisplaySize_frame mgr self) as (-> & _). lia.
  - rewrite doStuff_consumed. destruct (pollPlaying self); lia.
  - destruct (cdgDisplayUpdate_frame mgr self) as ((_ & H & _) & _).
    cbv zeta in H. lia.
  - cbn. lia.
Qed.

Lemma polls_cons (mgr : Manager) (clk : Clock) (rest : list Clock) (self : cdgPlayer) :
  polls mgr (clk :: rest) self =
  mkPollResult (if pollPlaying self then Some (pollPosition mgr clk self) else None)
               (fst (doStuff mgr clk self)) (snd (doStuff mgr clk self))
    :: polls mgr rest (fst (doStuff mgr clk self)).
Proof. cbn [polls]. destruct (doStuff mgr clk self). reflexivity. Qed.

(** The consumed count along a sequence of polls, under any bound [due]
    on the packets due at the positions seen. *)
Lemma polls_consumed (mgr : Manager) (due : Z) (clks : list Clock) :
  forall self : cdgPlayer,
    cdgReadPackets self <= due ->
    Forall (fun e => e * 300 / 1000 <= due) (positionsSeen (polls mgr clks self)) ->
    nondecreasing (cdgReadPackets self
                   :: map (fun r => cdgReadPackets (after r)) (polls mgr clks self)) /\
    Forall (fun r => cdgReadPackets (after r) <= due) (polls mgr clks self).
Proof.
  induction clks as [|clk rest IH]; intros self Hstart Hseen.
  - cbn. auto.
  - rewrite polls_cons in Hseen |- *.
    unfold positionsSeen in Hseen. cbn [flat_map seen] in Hseen.
    fold (positionsSeen (polls mgr rest (fst (doStuff mgr clk self)))) in Hseen.
    apply Forall_app in Hseen. destruct Hseen as [Hnow Hlater].
    pose proof (doStuff_consumed mgr clk self) as Hc.
    assert (cdgReadPackets self <= cdgReadPackets (fst (doStuff mgr clk self)) <= due)
      as [Hup Hbound].
    { rewrite Hc. destruct (pollPlaying self); [|lia].
      apply Forall_inv in Hnow. lia. }
    destruct (IH (fst (doStuff mgr clk self)) Hbound Hlater) as [Hmono Hall].
    split.
    + cbn [map after]. cbn [nondecreasing]. split; [exact Hup|exact Hmono].
    + constructor; [exact Hbound|exact Hall].
Qed.

(** A list of operations without a rewind. *)
Lemma run_consumed (ops : list (Manager * operation)) :
  forall self : cdgPlayer,
    forallb (fun x => negb (isRewind (snd x))) ops = true ->
    nondecreasing (cdgReadPackets self :: map cdgReadPackets (run ops self)).
Proof.
  induction ops as [|[mgr op] rest IH]; intros self Hops.
  - cbn. auto.
  - cbn [forallb snd] in Hops. apply andb_true_iff in Hops.
    destruct Hops as [Hop Hrest]. apply negb_true_iff in Hop.
    cbn [run map]. cbn [nondecreasing]. split.
    + apply step_consumed. exact Hop.
    + apply IH. exact Hrest.
Qed.

(** Consecutive refreshes along a sequence of polls. *)
Lemma polls_spaced (mgr : Manager) (ms : Q) (clks : list Clock) :
  forall self : cdgPlayer,
    ms_per_update self = ms ->
    spaced ms (LastPos self) (refreshPositions (polls mgr clks self)).
Proof.
  induction clks as [|clk rest IH]; intros self Hms.
  - cbn. exact I.
  - rewrite polls_cons. unfold refreshPositions. cbn [flat_map calls after].
    fold (refreshPositions (polls mgr rest (fst (doStuff mgr clk self)))).
    destruct (doStuff_refresh mgr clk self) as (Hupd & Hlast & Hms' & Hcur).
    cbv zeta in Hupd, Hlast, Hms', Hcur.
    specialize (IH (fst (doStuff mgr clk self))). rewrite Hms', Hms in IH.
    specialize (IH eq_refl). rewrite Hlast in IH. rewrite Hupd.
    destruct (pollPlaying self
              && float_gt (inject_Z (pollPosition mgr clk self - LastPos self))
                          (ms_per_update self)) eqn:R.
    + cbn [Nat.ltb Nat.leb app]. rewrite (Hcur eq_refl). cbn [spaced].
      split; [|exact IH].
      apply andb_true_iff in R. destruct R as [_ R].
      apply float_gt_lt in R. rewrite Hms in R. exact R.
    + cbn [Nat.ltb Nat.leb app]. exact IH.
Qed.

End FrameFacts.

(** ** Sequences of polls and operations *)

Section SequenceClaims.
Context {pyk : PykPlayerBase} {interp : CdgInterpreter}.

(** C3, as the code has it: for every sequence of polls with
    non-decreasing song positions, starting from a consumed count of zero
    (a new or rewound player) and with no rewind in between, the consumed
    count is non-decreasing from poll to poll and never exceeds
    max(0, floor(emax * 300 / 1000)), where emax bounds the positions seen;
    so it never exceeds floor(emax * 300 / 1000) once emax is not
    negative. *)
Theorem polls_consumed_bounded (mgr : Manager) (clks : list Clock)
    (self : cdgPlayer) (emax : Z) :
  cdgReadPackets self = 0 ->
  nondecreasing (positionsSeen (polls mgr clks self)) ->
  Forall (fun e => e <= emax) (positionsSeen (polls mgr clks self)) ->
  nondecreasing (cdgReadPackets self
                 :: map (fun r => cdgReadPackets (after r)) (polls mgr clks self)) /\
  Forall (fun r => cdgReadPackets (after r) <= Z.max 0 (emax * 300 / 1000))
         (polls mgr clks self) /\
  (0 <= emax ->
   Forall (fun r => cdgReadPackets (after r) <= emax * 300 / 1000)
          (polls mgr clks self)).
Proof.
  intros Hzero _ Hmax.
  assert (Forall (fun e => e * 300 / 1000 <= Z.max 0 (emax * 300 / 1000))
                 (positionsSeen (polls mgr clks self))) as Hdue.
  { eapply Forall_impl; [|exact Hmax]. cbn beta. intros e He.
    pose proof (Z.div_le_mono (e * 300) (emax * 300) 1000 ltac:(lia) ltac:(lia)).
    lia. }
  destruct (polls_consumed mgr (Z.max 0 (emax * 300 / 1000)) clks self
              ltac:(lia) Hdue) as [Hmono Hall].
  split; [exact Hmono|split; [exact Hall|]].
  intros Hnonneg.
  assert (0 <= emax * 300 / 1000) as Hd by (apply Z.div_pos; lia).
  rewrite Z.max_r in Hall by exact Hd. exact Hall.
Qed.

(** C5: across every sequence of player operations (play, pause, unpause,
    resize, polls, display updates, shutdown) that contains no rewind, the
    consumed-packet count never decreases; a poll adds a non-negative
    number of packets to it, and the rewind is what sets it back to zero. *)
Theorem consumed_never_decreases (ops : list (Manager * operation)) (self : cdgPlayer) :
  forallb (fun x => negb (isRewind (snd x))) ops = true ->
  nondecreasing (cdgReadPackets self :: map cdgReadPackets (run ops self)) /\
  (forall mgr clk p, 0 <= cdgReadPackets (fst (doStuff mgr clk p)) - cdgReadPackets p) /\
  (forall mgr p, cdgReadPackets (fst (step mgr OpRewind p)) = 0).
Proof.
  intros Hops. split; [apply run_consumed; exact Hops|split].
  - intros mgr clk p.
    pose proof (step_consumed mgr (OpPoll clk) p eq_refl) as H.
    cbn [step] in H. lia.
  - intros mgr p. cbn [step]. unfold doRewind.
    destruct (negb (nomusic (options mgr))); reflexivity.
Qed.

(** C10: refreshes are rate-limited independently of packet decoding.
    [__init__] sets ms_per_update to 1000 / fps; a poll runs the display
    update (once) exactly when the player is playing and the song position
    is more than ms_per_update past the position of the last refresh, and
    then records the position as the last refresh, otherwise it leaves the
    last-refresh position alone; so along any sequence of polls each
    refresh is more than ms_per_update past the one before it. *)
Theorem refresh_rate_limited (os : Os) (mgr0 : Manager) (fileName : option string)
    (mgr : Manager) (clk : Clock) (clks : list Clock) (self : cdgPlayer) :
  match cdgPlayer_init os mgr0 fileName with
  | (Returns new, _) =>
      ms_per_update new = (inject_Z 1000 / inject_Z (fps (options mgr0)))%Q
  | (Raises _, _) => True
  end /\
  (let pos := pollPosition mgr clk self in
   let refresh :=
     pollPlaying self
     && float_gt (inject_Z (pos - LastPos self)) (ms_per_update self) in
   let result := doStuff mgr clk self in
   (refresh = true <->
      pollPlaying self = true /\ (ms_per_update self < inject_Z (pos - LastPos self))%Q) /\
   displayUpdates (snd result) = (if refresh then 1%nat else 0%nat) /\
   LastPos (fst result) = (if refresh then pos else LastPos self) /\
   ms_per_update (fst result) = ms_per_update self) /\
  spaced (ms_per_update self) (LastPos self) (refreshPositions (polls mgr clks self)).
Proof.
  split; [|split].
  - unfold cdgPlayer_init.
    destruct (completeFileName (FileName (pykPlayer_init fileName))) as [name|];
      [|exact I].
    cbn [FileName set_FileName].
    destruct (negb (isfile os name)); [exact I|].
    destruct (findSoundFile os mgr0 name) as [[sound|e] ev0]; [|exact I].
    destruct (fps (options mgr0) =? 0); [exact I|].
    destruct (computeDisplaySize_frame mgr0
                (mkPlayer (mkPykPlayer (State (pykPlayer_init fileName)) name
                             (UserOffsetTime (pykPlayer_init fileName)))
                          sound 0 None None 0%Q 0 0 0 0
                          (OpenReader (file_bytes os name))
                          (if negb (nomusic (options mgr0))
                           then GetAudioBufferMS mgr0 else 0)
                          0 0 0 0 0 0
                          (inject_Z 1000 / inject_Z (fps (options mgr0)))%Q))
      as (_ & _ & _ & Hms).
    exact Hms.
  - cbv zeta.
    destruct (doStuff_refresh mgr clk self) as (Hupd & Hlast & Hms & _).
    cbv zeta in Hupd, Hlast, Hms.
    split; [|auto].
    rewrite andb_true_iff, float_gt_lt. reflexivity.
  - apply polls_spaced. reflexivity.
Qed.

End SequenceClaims.

(** ** Rewind, resize, display update, construction *)

Section MethodClaims.
Context {pyk : PykPlayerBase} {interp : CdgInterpreter}.

(** C4: after a rewind the consumed-packet count and the packets-due
    counter are zero, the playback bookkeeping (last refresh position, play
    time, play start time, pause offset) is zero, and the packet reader has
    been rewound: it is back at the start of its stream with no packet
    delivered. *)
Theorem doRewind_resets (mgr : Manager) (self : cdgPlayer) :
  let result := doRewind mgr self in
  cdgReadPackets (fst result) = 0 /\
  cdgPacketsDue (fst result) = 0 /\
  LastPos (fst result) = 0 /\
  PlayTime (fst result) = 0 /\
  PlayStartTime (fst result) = 0 /\
  pauseOffsetTime (fst result) = 0 /\
  packetReader (fst result) = Rewind (packetReader self) /\
  cdgDelivered (packetReader (fst result)) = 0 /\
  cdgUnread (packetReader (fst result)) = cdgSource (packetReader self) /\
  In EvReaderRewind (snd result).
Proof.
  unfold doRewind. destruct (negb (nomusic (options mgr))); cbn; intuition.
Qed.

(** C7: every resize notification marks all tiles dirty: [MarkTilesDirty]
    is called on the reader and afterwards every tile of the grid is dirty,
    while the pixel contents are what they were. *)
Theorem doResize_marks_all_dirty (mgr : Manager) (newSize : Z * Z) (self : cdgPlayer) :
  let result := doResize mgr newSize self in
  In EvMarkTilesDirty (snd result) /\
  GetDirtyTiles (packetReader (fst result)) = allTiles /\
  cdgPixelColours (cdgScreen (packetReader (fst result)))
    = cdgPixelColours (cdgScreen (packetReader self)).
Proof.
  unfold doResize. cbn [fst snd packetReader set_packetReader].
  destruct (computeDisplaySize_frame mgr self) as (_ & -> & _).
  split; [apply in_or_app; right; left; reflexivity|].
  split; reflexivity.
Qed.

(** C6: during a display update, when the border colour the reader reports
    differs from the last one seen and is not null, the whole display is
    filled with that colour and every tile is marked dirty, so that all 24
    tiles are redrawn; the colour becomes the last one seen. *)
Theorem border_change_redraws (mgr : Manager) (self : cdgPlayer) (c : colour) :
  GetBorderColour (packetReader self) = Some c ->
  borderColour self <> Some c ->
  let result := cdgDisplayUpdate mgr self in
  In (EvDisplayFill c) (snd result) /\
  In EvMarkTilesDirty (snd result) /\
  borderColour (fst result) = Some c /\
  GetDirtyTiles (packetReader (fst result)) = allTiles /\
  (forall row col, In (row, col) allTiles -> In (EvFillTile row col) (snd result)).
Proof.
  intros Hnew Hold. unfold cdgDisplayUpdate. rewrite Hnew.
  destruct (opt_colour_eqb (Some c) (borderColour self)) eqn:E.
  { apply opt_colour_eqb_eq in E. congruence. }
  cbn [negb fst snd].
  split; [right; left; reflexivity|].
  split; [right; right; left; reflexivity|].
  split; [reflexivity|]. split; [reflexivity|].
  intros row col Htile.
  do 4 right. apply redraw_fills. exact Htile.
Qed.

(** C8: when the CDG file is not there at construction, the error is
    reported exactly once through the error callback and the constructor
    raises, so that no player exists to be played; nothing else is called,
    in particular the check is not tried again. *)
Theorem init_missing_file (os : Os) (mgr : Manager) (fileName : option string)
    (name : string) :
  completeFileName (FileName (pykPlayer_init fileName)) = Some name ->
  isfile os name = false ->
  let result := cdgPlayer_init os mgr fileName in
  fst result = Raises (StringException "NoSuchFile") /\
  snd result = [EvErrorNotify ("No such file: " ++ name)] /\
  errorsNotified (snd result) = [("No such file: " ++ name)%string].
Proof.
  intros Hname Hfile. unfold cdgPlayer_init. rewrite Hname.
  cbn [FileName set_FileName]. rewrite Hfile. cbn. auto.
Qed.

End MethodClaims.

(** * The sample installation at work *)

Section SampleRuns.
#[local] Existing Instance samplePyk.
#[local] Existing Instance sampleInterpreter.

Example samplePlayer_built :
  fst (cdgPlayer_init sampleOs sampleManager (Some "/k/song.cdg"%string))
  = Returns samplePlayer.
Proof. vm_compute. reflexivity. Qed.

(** With the nomusic option no sound file is looked for and no audio is
    opened. *)
Example silent_player_built :
  match cdgPlayer_init sampleOs silentManager (Some "/k/song."%string) with
  | (Returns self, events) =>
      FileName (base self) = "/k/song.cdg"%string /\
      SoundFileName self = None /\
      InternalOffsetTime self = 0 /\
      ms_per_update self = (1000 # 25)%Q /\
      events = [EvInitPlayer; EvOpenDisplay; EvDisplayFill (0, 0, 0);
                EvNewSurface 49 51; EvNewSurface 294 204;
                EvOpenReader "/k/song.cdg"]
  | (Raises _, _) => False
  end.
Proof. vm_compute. repeat split. Qed.

(** A poll 10 ms into the song: 3 packets are due, none was consumed. *)
Lemma doStuff_requests_pending_witness :
  pollPlaying playingPlayer = true /\
  (let pos := pollPosition sampleManager (mkClock 110 0) playingPlayer in
   let target := pos * 300 / 1000 in
   let pending := target - cdgReadPackets playingPlayer in
   let result := doStuff sampleManager (mkClock 110 0) playingPlayer in
   1000 * target <= pos * 300 < 1000 * (target + 1) /\
   cdgPacketsDue (fst result) = target /\
   (pending <= 0 ->
      readerRequests (snd result) = [] /\
      cdgReadPackets (fst result) = cdgReadPackets playingPlayer /\
      cdgDelivered (packetReader (fst result))
        = cdgDelivered (packetReader playingPlayer)) /\
   (0 < pending -> readerRequests (snd result) = [pending])).
Proof.
  split; [reflexivity|].
  apply (doStuff_requests_pending sampleManager (mkClock 110 0) playingPlayer).
  reflexivity.
Defined.

Example doStuff_requests_three :
  readerRequests (snd (doStuff sampleManager (mkClock 110 0) playingPlayer)) = [3].
Proof. vm_compute. reflexivity. Qed.

(** The same poll: the file has two packets, so the third read meets the
    end of the stream. *)
Lemma doStuff_end_of_stream_witness :
  pollPlaying playingPlayer = true /\
  0 < pollPosition sampleManager (mkClock 110 0) playingPlayer * 300 / 1000
      - cdgReadPackets playingPlayer /\
  (let pending := pollPosition sampleManager (mkClock 110 0) playingPlayer * 300 / 1000
                  - cdgReadPackets playingPlayer in
   let answer := DoPackets pending (packetReader playingPlayer) in
   let result := doStuff sampleManager (mkClock 110 0) playingPlayer in
   cdgReadPackets (fst result) = cdgReadPackets playingPlayer + pending /\
   if fst answer
   then closed (snd result) = false /\
        base (fst result) = pykPlayer_doStuff (base playingPlayer) /\
        cdgDelivered (packetReader (fst result))
          = cdgDelivered (packetReader playingPlayer) + pending
   else closed (snd result) = true /\
        base (fst result) = pykPlayer_Close (pykPlayer_doStuff (base playingPlayer)) /\
        cdgDelivered (packetReader playingPlayer)
          <= cdgDelivered (packetReader (fst result))
          < cdgDelivered (packetReader playingPlayer) + pending).
Proof.
  split; [reflexivity|]. split; [reflexivity|].
  apply (doStuff_end_of_stream sampleManager (mkClock 110 0) playingPlayer);
    reflexivity.
Defined.

(** At the end of the stream the consumed count goes up by the 3 packets
    requested although the reader delivered 2. *)
Lemma doStuff_eof_overcounts :
  closed (snd (doStuff sampleManager (mkClock 110 0) playingPlayer)) = true /\
  cdgReadPackets (fst (doStuff sampleManager (mkClock 110 0) playingPlayer)) = 3 /\
  cdgDelivered (packetReader (fst (doStuff sampleManager (mkClock 110 0) playingPlayer))) = 2 /\
  ~ countWithinDelivered playingPlayer
      (fst (doStuff sampleManager (mkClock 110 0) playingPlayer)).
Proof.
  split; [vm_compute; reflexivity|]. split; [vm_compute; reflexivity|].
  split; [vm_compute; reflexivity|].
  unfold countWithinDelivered. vm_compute. intros H. apply H. reflexivity.
Qed.

(** Five polls; the song is at 0, 4, 4 and 20 ms when the first four look,
    and the fourth meets the end of the file, so the fifth finds the player
    closed. *)
Lemma polls_consumed_bounded_witness :
  cdgReadPackets playingPlayer = 0 /\
  nondecreasing
    (positionsSeen
       (polls sampleManager
          [mkClock 100 0; mkClock 104 0; mkClock 104 0; mkClock 120 0; mkClock 150 0]
          playingPlayer)) /\
  Forall (fun e => e <= 20)
    (positionsSeen
       (polls sampleManager
          [mkClock 100 0; mkClock 104 0; mkClock 104 0; mkClock 120 0; mkClock 150 0]
          playingPlayer)) /\
  (nondecreasing
     (cdgReadPackets playingPlayer
      :: map (fun r => cdgReadPackets (after r))
           (polls sampleManager
              [mkClock 100 0; mkClock 104 0; mkClock 104 0; mkClock 120 0; mkClock 150 0]
              playingPlayer)) /\
   Forall (fun r => cdgReadPackets (after r) <= Z.max 0 (20 * 300 / 1000))
     (polls sampleManager
        [mkClock 100 0; mkClock 104 0; mkClock 104 0; mkClock 120 0; mkClock 150 0]
        playingPlayer) /\
   (0 <= 20 ->
    Forall (fun r => cdgReadPackets (after r) <= 20 * 300 / 1000)
      (polls sampleManager
         [mkClock 100 0; mkClock 104 0; mkClock 104 0; mkClock 120 0; mkClock 150 0]
         playingPlayer))).
Proof.
  assert (positionsSeen
            (polls sampleManager
               [mkClock 100 0; mkClock 104 0; mkClock 104 0; mkClock 120 0; mkClock 150 0]
               playingPlayer) = [0; 4; 4; 20]) as E by (vm_compute; reflexivity).
  assert (nondecreasing [0; 4; 4; 20]) as Hn by (cbn; lia).
  assert (Forall (fun e => e <= 20) [0; 4; 4; 20]) as Hf
    by (repeat constructor; lia).
  rewrite E.
  split; [reflexivity|]. split; [exact Hn|]. split; [exact Hf|].
  apply (polls_consumed_bounded sampleManager
           [mkClock 100 0; mkClock 104 0; mkClock 104 0; mkClock 120 0; mkClock 150 0]
           playingPlayer 20).
  - reflexivity.
  - rewrite E. exact Hn.
  - rewrite E. exact Hf.
Defined.

(** Before the buffered audio is heard the song position is negative:
    -100 ms is the one position seen, -30 packets are due there, and the
    consumed count is 0, as is the number of packets read. *)
Lemma polls_negative_position :
  cdgReadPackets playingPlayer = 0 /\
  positionsSeen earlyPolls = [-100] /\
  (-100) * 300 / 1000 = -30 /\
  map (fun r => cdgReadPackets (after r)) earlyPolls = [0] /\
  map (fun r => cdgDelivered (packetReader (after r))) earlyPolls = [0] /\
  ~ consumedWithinDue (-100) earlyPolls.
Proof.
  split; [reflexivity|]. split; [vm_compute; reflexivity|].
  split; [reflexivity|]. split; [vm_compute; reflexivity|].
  split; [vm_compute; reflexivity|].
  unfold consumedWithinDue, earlyPolls. rewrite polls_cons.
  intros H. apply Forall_inv in H. vm_compute in H. apply H. reflexivity.
Qed.

Lemma consumed_never_decreases_witness :
  forallb (fun x => negb (isRewind (snd x))) sampleSession = true /\
  (nondecreasing (cdgReadPackets playingPlayer
                  :: map cdgReadPackets (run sampleSession playingPlayer)) /\
   (forall mgr clk p, 0 <= cdgReadPackets (fst (doStuff mgr clk p)) - cdgReadPackets p) /\
   (forall mgr p, cdgReadPackets (fst (step mgr OpRewind p)) = 0)).
Proof.
  split; [reflexivity|].
  apply (consumed_never_decreases sampleSession playingPlayer).
  reflexivity.
Defined.

Example sampleSession_counts :
  map cdgReadPackets (run sampleSession playingPlayer) = [0; 1; 1; 1; 1; 1; 9; 9].
Proof. vm_compute. reflexivity. Qed.

(** The border preset was decoded and the screen not refreshed since. *)
Lemma border_change_redraws_witness :
  GetBorderColour (packetReader borderPending) = Some (0, 0, 0) /\
  borderColour borderPending <> Some (0, 0, 0) /\
  (let result := cdgDisplayUpdate sampleManager borderPending in
   In (EvDisplayFill (0, 0, 0)) (snd result) /\
   In EvMarkTilesDirty (snd result) /\
   borderColour (fst result) = Some (0, 0, 0) /\
   GetDirtyTiles (packetReader (fst result)) = allTiles /\
   (forall row col, In (row, col) allTiles -> In (EvFillTile row col) (snd result))).
Proof.
  assert (GetBorderColour (packetReader borderPending) = Some (0, 0, 0)) as Hnew
    by (vm_compute; reflexivity).
  assert (borderColour borderPending <> Some (0, 0, 0)) as Hold
    by (vm_compute; discriminate).
  split; [exact Hnew|]. split; [exact Hold|].
  exact (border_change_redraws sampleManager borderPending (0, 0, 0) Hnew Hold).
Defined.

(** A name completed by the shell up to its dot, with no such file. *)
Lemma init_missing_file_witness :
  completeFileName (FileName (pykPlayer_init (Some "/k/nothing."%string)))
    = Some "/k/nothing.cdg"%string /\
  isfile sampleOs "/k/nothing.cdg" = false /\
  (let result := cdgPlayer_init sampleOs sampleManager (Some "/k/nothing."%string) in
   fst result = Raises (StringException "NoSuchFile") /\
   snd result = [EvErrorNotify ("No such file: " ++ "/k/nothing.cdg")] /\
   errorsNotified (snd result) = [("No such file: " ++ "/k/nothing.cdg")%string]).
Proof.
  split; [reflexivity|]. split; [reflexivity|].
  apply (init_missing_file sampleOs sampleManager (Some "/k/nothing."%string)
           "/k/nothing.cdg"); reflexivity.
Defined.

(** The sample player refreshes every 1000/60 ms at most: of five polls
    only the one at 20 ms refreshes. *)
Example sample_refreshes :
  ms_per_update samplePlayer = (1000 # 60)%Q /\
  refreshPositions
    (polls sampleManager
       [mkClock 100 0; mkClock 104 0; mkClock 104 0; mkClock 120 0; mkClock 150 0]
       playingPlayer) = [20].
Proof. split; vm_compute; reflexivity. Qed.

End SampleRuns.

(** * Further properties of the code *)

(** ** Python's list and string operations *)

Lemma list_index_found (x : string) (l : list string) (i : nat) :
  list_index x l = Some i -> nth_error l i = Some x.
Proof.
  revert i. induction l as [|y l IH]; intros i H; [discriminate|].
  cbn [list_index] in H. destruct (String.eqb y x) eqn:E.
  - injection H as <-. apply String.eqb_eq in E. subst. reflexivity.
  - destruct (list_index x l) as [j|]; [|discriminate].
    injection H as <-. cbn. apply IH. reflexivity.
Qed.

Lemma list_index_absent (x : string) (l : list string) :
  list_index x l = None <-> ~ In x l.
Proof.
  induction l as [|y l IH]; cbn [list_index In]; [tauto|].
  destruct (String.eqb y x) eqn:E.
  - apply String.eqb_eq in E. split; [discriminate|]. intros H. exfalso. auto.
  - apply String.eqb_neq in E.
    destruct (list_index x l) as [j|].
    + split; [discriminate|]. intros H. exfalso. apply H. right.
      destruct (in_dec string_dec x l) as [Hin|Hout]; [exact Hin|].
      apply IH in Hout. discriminate.
    + split; [|reflexivity]. intros _ [H|H]; [auto|]. apply IH in H; auto.
Qed.

(** The loop over the extensions stops at the first one that has a file. *)
Lemma match_ext_found (file : string) (lowers : list string) (exts : list string) (i : nat) :
  match_ext file lowers exts = Some i ->
  exists pre ext post,
    exts = pre ++ ext :: post /\
    nth_error lowers i = Some (lower (file ++ ext)) /\
    forall e, In e pre -> ~ In (lower (file ++ e)) lowers.
Proof.
  induction exts as [|e exts IH]; intros H; [discriminate|].
  cbn [match_ext] in H.
  destruct (list_index (lower (file ++ e)) lowers) as [j|] eqn:E.
  - injection H as <-. exists [], e, exts. split; [reflexivity|].
    split; [apply list_index_found; exact E|]. intros e' [].
  - destruct (IH H) as (pre & ext & post & -> & Hnth & Hpre).
    exists (e :: pre), ext, post. split; [reflexivity|]. split; [exact Hnth|].
    intros e' [<-|Hin]; [apply list_index_absent; exact E|auto].
Qed.

Lemma match_ext_none (file : string) (lowers : list string) (exts : list string) :
  match_ext file lowers exts = None <->
  forall e, In e exts -> ~ In (lower (file ++ e)) lowers.
Proof.
  induction exts as [|e exts IH]; cbn [match_ext In]; [tauto|].
  destruct (list_index (lower (file ++ e)) lowers) as [j|] eqn:E.
  - split; [discriminate|]. intros H. exfalso.
    apply (H e (or_introl eq_refl)).
    apply list_index_found in E. eapply nth_error_In. exact E.
  - rewrite IH. apply list_index_absent in E.
    split; [intros H e' [<-|Hin]; auto|intros H e' Hin; auto].
Qed.

(** ** Construction *)

Section InitFacts.
Context {pyk : PykPlayerBase}.

(** The search for the sound file ends in one of three ways. *)
Lemma findSoundFile_cases (os : Os) (mgr : Manager) (name : string) :
  (exists sound, findSoundFile os mgr name = (Returns sound, [])) \/
  findSoundFile os mgr name = (Raises OSError, []) \/
  findSoundFile os mgr name =
    (Raises (StringException "NoSoundFile"),
     [EvErrorNotify ("There is no mp3 or ogg file to match " ++ name)]).
Proof.
  unfold findSoundFile. destruct (negb (nomusic (options mgr))); [|eauto].
  destruct (path_split os (drop_last3 name)) as [path file].
  destruct (listdir os path) as [names|]; [|auto].
  destruct (match_ext _ _ _); eauto.
Qed.

(** X4: with music, the sound file [__init__] settles on is a file of the
    CDG file's directory whose name starts with the CDG file's base name
    (case-sensitively) and which, lower-cased, is that base name plus one
    of wav, ogg, mp3; an extension earlier in that order wins whenever the
    directory has a file for it. *)
Theorem findSoundFile_choice (os : Os) (mgr : Manager) (name path file : string)
    (names : list string) (sound : option string) (events : list event) :
  nomusic (options mgr) = false ->
  path_split os (drop_last3 name) = (path, file) ->
  listdir os path = Some names ->
  findSoundFile os mgr name = (Returns sound, events) ->
  events = [] /\
  exists f pre ext post,
    sound = Some (path_join os path f) /\
    In f names /\ String.prefix file f = true /\
    ["wav"; "ogg"; "mp3"]%string = pre ++ ext :: post /\
    lower f = lower (file ++ ext) /\
    forall e f', In e pre -> In f' names -> String.prefix file f' = true ->
                 lower f' <> lower (file ++ e).
Proof.
  intros Hmusic Hsplit Hdir. unfold findSoundFile.
  rewrite Hmusic, Hsplit, Hdir. cbn [negb].
  set (fileList := filter (fun filename => String.prefix file filename) names).
  destruct (match_ext file (map lower fileList) ["wav"; "ogg"; "mp3"]%string)
    as [i|] eqn:E; [|discriminate].
  intros H. injection H as <- <-. split; [reflexivity|].
  destruct (match_ext_found _ _ _ _ E) as (pre & ext & post & Hexts & Hnth & Hpre).
  rewrite nth_error_map in Hnth.
  destruct (nth_error fileList i) as [f|] eqn:Hf; [|discriminate].
  cbn in Hnth. injection Hnth as Hlow.
  exists f, pre, ext, post.
  assert (In f fileList) as Hin by (eapply nth_error_In; exact Hf).
  apply filter_In in Hin. destruct Hin as [Hin Hprefix].
  split; [rewrite (nth_error_nth _ _ _ Hf); reflexivity|].
  split; [exact Hin|]. split; [exact Hprefix|]. split; [exact Hexts|].
  split; [exact Hlow|].
  intros e f' He Hin' Hprefix' Heq.
  apply (Hpre e He). rewrite <- Heq. apply in_map.
  apply filter_In. auto.
Qed.

End InitFacts.

Section InitClaims.
Context {pyk : PykPlayerBase}.

(** [computeDisplaySize] writes the five display attributes and nothing
    else. *)
Lemma computeDisplaySize_writes (mgr : Manager) (self : cdgPlayer) :
  exists scale rowOffset colOffset tileWidth tileHeight,
    computeDisplaySize mgr self
    = set_display scale rowOffset colOffset tileWidth tileHeight self.
Proof.
  unfold computeDisplaySize. destruct (displaySize mgr) as [w h].
  destruct (String.eqb (zoom_mode (options mgr)) "quick"
            || String.eqb (zoom_mode (options mgr)) "int"); eauto 6.
Qed.

(** How [__init__] ends, case by case. *)
Lemma cdgPlayer_init_cases (os : Os) (mgr : Manager) (fileName : option string) :
  let b := pykPlayer_init fileName in
  match completeFileName (FileName b) with
  | None => cdgPlayer_init os mgr fileName = (Raises IndexError, [])
  | Some name =>
      if negb (isfile os name)
      then cdgPlayer_init os mgr fileName =
             (Raises (StringException "NoSuchFile"),
              [EvErrorNotify ("No such file: " ++ name)])
      else
        match findSoundFile os mgr name with
        | (Raises e, ev) => cdgPlayer_init os mgr fileName = (Raises e, ev)
        | (Returns sound, ev0) =>
            let events :=
              ev0 ++ [EvInitPlayer; EvOpenDisplay; EvDisplayFill (0, 0, 0);
                      EvNewSurface TILE_WIDTH TILE_HEIGHT;
                      EvNewSurface CDG_DISPLAY_WIDTH CDG_DISPLAY_HEIGHT]
                  ++ [EvOpenReader name]
                  ++ match sound with
                     | Some soundFile =>
                         [EvOpenAudio (getAudioProperties os soundFile);
                          EvMusicLoad soundFile; EvMusicSetEndevent]
                     | None => []
                     end in
            if fps (options mgr) =? 0
            then cdgPlayer_init os mgr fileName = (Raises ZeroDivisionError, events)
            else
              exists scale rowOffset colOffset tileWidth tileHeight,
                cdgPlayer_init os mgr fileName =
                (Returns
                   (mkPlayer (set_FileName name b) sound 0 None None
                             scale rowOffset colOffset tileWidth tileHeight
                             (OpenReader (file_bytes os name))
                             (if negb (nomusic (options mgr))
                              then GetAudioBufferMS mgr else 0)
                             0 0 0 0 0 0
                             (inject_Z 1000 / inject_Z (fps (options mgr)))%Q),
                 events)
        end
  end.
Proof.
  cbv zeta. unfold cdgPlayer_init.
  destruct (completeFileName (FileName (pykPlayer_init fileName))) as [name|];
    [|reflexivity].
  cbn [FileName set_FileName].
  destruct (negb (isfile os name)); [reflexivity|].
  destruct (findSoundFile os mgr name) as [[sound|e] ev0]; [|reflexivity].
  destruct (fps (options mgr) =? 0); [reflexivity|].
  match goal with
  | |- context [computeDisplaySize mgr ?p] =>
      destruct (computeDisplaySize_writes mgr p) as (sc & ro & co & tw & th & ->)
  end.
  exists sc, ro, co, tw, th. reflexivity.
Qed.

(** X1: the error callback is called at most once by [__init__]: exactly
    once when it raises 'NoSuchFile' or 'NoSoundFile', the only string
    exceptions it raises, and never when it returns a player or fails with
    another exception. *)
Theorem init_notifies_once (os : Os) (mgr : Manager) (fileName : option string) :
  match cdgPlayer_init os mgr fileName with
  | (Raises (StringException s), events) =>
      (s = "NoSuchFile"%string \/ s = "NoSoundFile"%string) /\
      List.length (errorsNotified events) = 1%nat
  | (_, events) => errorsNotified events = []
  end.
Proof.
  pose proof (cdgPlayer_init_cases os mgr fileName) as H. cbv zeta in H.
  destruct (completeFileName (FileName (pykPlayer_init fileName))) as [name|];
    [|rewrite H; reflexivity].
  destruct (negb (isfile os name)); [rewrite H; cbn; auto|].
  destruct (findSoundFile_cases os mgr name) as [[sound E]|[E|E]];
    rewrite E in H; try (rewrite H; cbn; auto; fail).
  destruct (fps (options mgr) =? 0);
    [|destruct H as (sc & ro & co & tw & th & H)];
    rewrite H; destruct sound; reflexivity.
Qed.

(** X2: a player that [__init__] returns stands on an existing CDG file,
    whose name is the one given, completed by 'cdg' when it ended in a dot;
    with music it has found a sound file and loaded it, and delays the
    lyrics by the audio buffer; with the nomusic option it has no sound
    file, opens no audio and delays nothing. *)
Theorem init_returns_file (os : Os) (mgr : Manager) (fileName : option string)
    (self : cdgPlayer) (events : list event) :
  cdgPlayer_init os mgr fileName = (Returns self, events) ->
  completeFileName (FileName (pykPlayer_init fileName)) = Some (FileName (base self)) /\
  isfile os (FileName (base self)) = true /\
  In (EvOpenReader (FileName (base self))) events /\
  if nomusic (options mgr)
  then SoundFileName self = None /\ InternalOffsetTime self = 0 /\
       (forall f, ~ In (EvMusicLoad f) events) /\
       (forall props, ~ In (EvOpenAudio props) events)
  else (exists sound, SoundFileName self = Some sound /\ In (EvMusicLoad sound) events) /\
       InternalOffsetTime self = GetAudioBufferMS mgr.
Proof.
  intros Hinit.
  pose proof (cdgPlayer_init_cases os mgr fileName) as H. cbv zeta in H.
  destruct (completeFileName (FileName (pykPlayer_init fileName))) as [name|];
    [|congruence].
  destruct (negb (isfile os name)) eqn:Hfile; [congruence|].
  apply negb_false_iff in Hfile.
  pose proof (findSoundFile_cases os mgr name) as Hsound.
  unfold findSoundFile in Hsound, H.
  destruct (nomusic (options mgr)) eqn:Hmusic; cbn [negb] in Hsound, H.
  - destruct (fps (options mgr) =? 0); [congruence|].
    destruct H as (sc & ro & co & tw & th & H). rewrite H in Hinit.
    injection Hinit as <- <-. cbn.
    repeat split; auto; intros; intuition discriminate.
  - destruct (path_split os (drop_last3 name)) as [path file].
    destruct (listdir os path) as [names|]; [|congruence].
    destruct (match_ext _ _ _) as [i|]; [|congruence].
    destruct (fps (options mgr) =? 0); [congruence|].
    destruct H as (sc & ro & co & tw & th & H). rewrite H in Hinit.
    injection Hinit as <- <-. cbn.
    split; [reflexivity|]. split; [exact Hfile|]. split; [auto 10|].
    split; [|reflexivity]. eexists. split; [reflexivity|]. auto 10.
Qed.

(** X3: a player that [__init__] returns is at the beginning: nothing
    consumed, nothing due, no refresh yet, no time played or paused, no
    border colour seen, a reader newly opened on the CDG file, the state
    the base class gave it, and a frame rate that is not zero. *)
Theorem init_returns_fresh (os : Os) (mgr : Manager) (fileName : option string)
    (self : cdgPlayer) (events : list event) :
  cdgPlayer_init os mgr fileName = (Returns self, events) ->
  cdgReadPackets self = 0 /\ cdgPacketsDue self = 0 /\
  LastPos self = 0 /\ curr_pos self = 0 /\
  PlayTime self = 0 /\ PlayStartTime self = 0 /\ pauseOffsetTime self = 0 /\
  borderColour self = None /\
  packetReader self = OpenReader (file_bytes os (FileName (base self))) /\
  State (base self) = State (pykPlayer_init fileName) /\
  fps (options mgr) <> 0.
Proof.
  intros Hinit.
  pose proof (cdgPlayer_init_cases os mgr fileName) as H. cbv zeta in H.
  destruct (completeFileName (FileName (pykPlayer_init fileName))) as [name|];
    [|congruence].
  destruct (negb (isfile os name)); [congruence|].
  destruct (findSoundFile os mgr name) as [[sound|e] ev0]; [|congruence].
  destruct (fps (options mgr) =? 0) eqn:Hfps; [congruence|].
  destruct H as (sc & ro & co & tw & th & H). rewrite H in Hinit.
  injection Hinit as <- <-. cbn.
  apply Z.eqb_neq in Hfps. repeat split; auto.
Qed.

(** X5: with music and an existing CDG file, when the directory of the CDG
    file has no file for any of the extensions wav, ogg, mp3, [__init__]
    reports that once through the error callback and raises 'NoSoundFile';
    nothing has been opened by then. *)
Theorem init_no_sound_file (os : Os) (mgr : Manager) (fileName : option string)
    (name path file : string) (names : list string) :
  completeFileName (FileName (pykPlayer_init fileName)) = Some name ->
  isfile os name = true ->
  nomusic (options mgr) = false ->
  path_split os (drop_last3 name) = (path, file) ->
  listdir os path = Some names ->
  (forall e f, In e ["wav"; "ogg"; "mp3"]%string -> In f names ->
               String.prefix file f = true -> lower f <> lower (file ++ e)) ->
  cdgPlayer_init os mgr fileName =
  (Raises (StringException "NoSoundFile"),
   [EvErrorNotify ("There is no mp3 or ogg file to match " ++ name)]).
Proof.
  intros Hname Hfile Hmusic Hsplit Hdir Hnone.
  pose proof (cdgPlayer_init_cases os mgr fileName) as H. cbv zeta in H.
  rewrite Hname, Hfile in H. cbn [negb] in H.
  unfold findSoundFile in H. rewrite Hmusic, Hsplit, Hdir in H. cbn [negb] in H.
  destruct (match_ext file
              (map lower (filter (fun filename => String.prefix file filename) names))
              ["wav"; "ogg"; "mp3"]%string) as [i|] eqn:E; [|exact H].
  exfalso. destruct (match_ext_found _ _ _ _ E) as (pre & ext & post & Hexts & Hnth & _).
  apply nth_error_In in Hnth. apply in_map_iff in Hnth.
  destruct Hnth as (f & Hlow & Hin). apply filter_In in Hin.
  destruct Hin as [Hin Hprefix].
  apply (Hnone ext f); auto.
  rewrite Hexts. apply in_or_app. right. left. reflexivity.
Qed.

(** X6: with 0 frames per second no player is ever returned; when the
    files are all there the constructor fails with a ZeroDivisionError only
    at its last line, after the display, the reader and the audio were
    opened. *)
Theorem init_fps_zero (os : Os) (mgr : Manager) (fileName : option string) :
  fps (options mgr) = 0 ->
  (forall self, fst (cdgPlayer_init os mgr fileName) <> Returns self) /\
  (fst (cdgPlayer_init os mgr fileName) = Raises ZeroDivisionError ->
   In EvOpenDisplay (snd (cdgPlayer_init os mgr fileName)) /\
   (exists name, In (EvOpenReader name) (snd (cdgPlayer_init os mgr fileName))) /\
   (nomusic (options mgr) = false ->
    exists sound, In (EvMusicLoad sound) (snd (cdgPlayer_init os mgr fileName)))).
Proof.
  intros Hfps.
  pose proof (cdgPlayer_init_cases os mgr fileName) as H. cbv zeta in H.
  destruct (completeFileName (FileName (pykPlayer_init fileName))) as [name|];
    [|rewrite H; split; [discriminate|discriminate]].
  destruct (negb (isfile os name));
    [rewrite H; split; [discriminate|discriminate]|].
  pose proof (findSoundFile_cases os mgr name) as Hsound.
  unfold findSoundFile in Hsound, H.
  destruct (nomusic (options mgr)) eqn:Hmusic; cbn [negb] in Hsound, H.
  - rewrite Hfps in H. cbn [Z.eqb] in H. rewrite H. cbn [fst snd].
    split; [discriminate|]. intros _. split; [cbn; auto|].
    split; [exists name; cbn; auto 10|discriminate].
  - destruct (path_split os (drop_last3 name)) as [path file].
    destruct (listdir os path) as [names|];
      [|rewrite H; split; [discriminate|discriminate]].
    destruct (match_ext _ _ _) as [i|];
      [|rewrite H; split; [discriminate|discriminate]].
    rewrite Hfps in H. cbn [Z.eqb] in H. rewrite H. cbn [fst snd].
    split; [discriminate|]. intros _. split; [cbn; auto|].
    split; [exists name; cbn; auto 10|].
    intros _. eexists. cbn. auto 10.
Qed.

End InitClaims.

(** ** Play, pause, unpause, rewind *)

Section ClockClaims.
Context {pyk : PykPlayerBase} {interp : CdgInterpreter}.

(** X7: with music, an unpause that follows a pause never fails and adds
    to the pause offset what the mixer's position counter advanced in
    between, whatever state the base class set meanwhile; the song position
    of every later poll is lowered by exactly that amount, and nothing else
    about the player changes. *)
Theorem pause_unpause_offset (mgr : Manager) (c1 c2 : Clock) (st : Z) (self : cdgPlayer) :
  nomusic (options mgr) = false ->
  let slept := music_get_pos c2 - music_get_pos c1 in
  exists resumed,
    doUnpause mgr c2 (setState st (fst (doPause mgr c1 self)))
      = (Returns resumed, [EvMusicUnpause]) /\
    snd (doPause mgr c1 self) = [EvMusicPause] /\
    pauseOffsetTime resumed = pauseOffsetTime self + slept /\
    (forall clk, pollPosition mgr clk resumed
                 = pollPosition mgr clk (setState st self) - slept) /\
    cdgReadPackets resumed = cdgReadPackets self /\
    LastPos resumed = LastPos self /\
    packetReader resumed = packetReader self.
Proof.
  intros Hmusic slept. unfold doPause, doUnpause, GetPos. rewrite Hmusic.
  cbn [negb fst snd setState set_base set_PauseStartTime PauseStartTime].
  eexists. split; [reflexivity|]. split; [reflexivity|].
  split; [reflexivity|]. split; [|repeat split].
  intros clk. unfold pollPosition, GetPos. rewrite Hmusic. cbn. unfold slept. lia.
Qed.

(** X8: with the nomusic option the song position is kept from pygame's
    tick counter: once played it is the ticks since [doPlay]; paused, it
    stands still at the position of the pause for every later reading; and
    after the unpause it goes on from there.  None of the three calls the
    mixer. *)
Theorem nomusic_clock (mgr : Manager) (c0 c1 c2 clk : Clock) (st : Z) (self : cdgPlayer) :
  nomusic (options mgr) = true ->
  st <> STATE_PLAYING ->
  let played := setState STATE_PLAYING (fst (doPlay mgr c0 self)) in
  let paused := setState st (fst (doPause mgr c1 played)) in
  GetPos mgr clk played = time_get_ticks clk - time_get_ticks c0 /\
  GetPos mgr clk paused = time_get_ticks c1 - time_get_ticks c0 /\
  snd (doPlay mgr c0 self) = [] /\ snd (doPause mgr c1 played) = [] /\
  exists resumed,
    doUnpause mgr c2 paused = (Returns resumed, []) /\
    GetPos mgr clk (setState STATE_PLAYING resumed)
    = (time_get_ticks clk - time_get_ticks c2)
      + (time_get_ticks c1 - time_get_ticks c0).
Proof.
  intros Hsilent Hst. cbv zeta.
  unfold doPlay, doPause, doUnpause, GetPos. rewrite Hsilent.
  cbn [negb fst snd setState set_base base State set_PlayStartTime set_PlayTime
       PlayStartTime PlayTime].
  rewrite Z.eqb_refl.
  assert ((st =? STATE_PLAYING) = false) as -> by (apply Z.eqb_neq; exact Hst).
  repeat split.
  eexists. split; [reflexivity|].
  cbn [PlayStartTime set_PlayStartTime]. lia.
Qed.

(** X9: rewinding twice is rewinding once, and the first poll of a rewound
    player that is playing asks the reader, which is back at the start of
    the file, for all the packets due at its position (none when the
    position is not past the first packet), leaving exactly that many
    counted as consumed. *)
Theorem doRewind_restarts (mgr mgr' : Manager) (clk : Clock) (self : cdgPlayer) :
  let rewound := fst (doRewind mgr self) in
  fst (doRewind mgr' rewound) = rewound /\
  (pollPlaying rewound = true ->
   let due := pollPosition mgr' clk rewound * 300 / 1000 in
   cdgUnread (packetReader rewound) = cdgSource (packetReader self) /\
   readerRequests (snd (doStuff mgr' clk rewound)) = (if due >? 0 then [due] else []) /\
   cdgReadPackets (fst (doStuff mgr' clk rewound)) = Z.max 0 due).
Proof.
  cbv zeta. split.
  - unfold doRewind.
    destruct (negb (nomusic (options mgr))), (negb (nomusic (options mgr')));
      reflexivity.
  - intros Hplay.
    destruct (doStuff_playing mgr' clk _ Hplay) as ((_ & _ & Hread & _) & _ & (Hreq & _)).
    cbv zeta in Hread, Hreq.
    assert (cdgReadPackets (fst (doRewind mgr self)) = 0) as Hzero
      by (unfold doRewind; destruct (negb (nomusic (options mgr))); reflexivity).
    rewrite Hzero in Hread, Hreq. rewrite Z.sub_0_r in Hread, Hreq.
    split; [|split].
    + unfold doRewind; destruct (negb (nomusic (options mgr))); reflexivity.
    + exact Hreq.
    + rewrite Hread.
      destruct (pollPosition mgr' clk (fst (doRewind mgr self)) * 300 / 1000 >? 0) eqn:E;
        lia.
Qed.

End ClockClaims.

(** ** More on the display update *)

Lemma tilesFilled_app (a b : list event) :
  tilesFilled (a ++ b) = tilesFilled a ++ tilesFilled b.
Proof. unfold tilesFilled. apply flat_map_app. Qed.

Lemma fills_app (a b : list event) : fills (a ++ b) = fills a ++ fills b.
Proof. unfold fills. apply flat_map_app. Qed.

Lemma partialUpdates_app (a b : list event) :
  partialUpdates (a ++ b) = partialUpdates a ++ partialUpdates b.
Proof. unfold partialUpdates. apply flat_map_app. Qed.

Lemma flips_app (a b : list event) : flips (a ++ b) = (flips a + flips b)%nat.
Proof. unfold flips. rewrite filter_app, length_app. reflexivity. Qed.

Lemma marksAllDirty_app (a b : list event) :
  marksAllDirty (a ++ b) = (marksAllDirty a + marksAllDirty b)%nat.
Proof. unfold marksAllDirty. rewrite filter_app, length_app. reflexivity. Qed.

(** Rewrites the readings of a concatenation into readings of its parts. *)
Ltac split_calls :=
  rewrite ?tilesFilled_app, ?fills_app, ?partialUpdates_app, ?flips_app,
    ?marksAllDirty_app.

Section RedrawFacts.
Context {pyk : PykPlayerBase} {interp : CdgInterpreter}.

(** The calls of the tile loop. *)
Lemma blit_calls (mgr : Manager) (self : cdgPlayer) (tiles : list (Z * Z)) :
  let events := flat_map (fun t => fst (blitTile mgr self t)) tiles in
  tilesFilled events = tiles /\ fills events = [] /\ partialUpdates events = [] /\
  flips events = 0%nat /\ marksAllDirty events = 0%nat.
Proof.
  induction tiles as [|[row col] tiles IH]; [cbn; auto|].
  cbn zeta in IH |- *. cbn [flat_map]. split_calls.
  destruct IH as (-> & -> & -> & -> & ->).
  unfold blitTile.
  destruct (String.eqb (zoom_mode (options mgr)) "none");
    [|destruct (String.eqb (zoom_mode (options mgr)) "quick"
               || String.eqb (zoom_mode (options mgr)) "int")];
    cbn; auto.
Qed.

(** In the direct modes the loop collects one rectangle per dirty tile. *)
Lemma blit_rects (mgr : Manager) (self : cdgPlayer) (tiles : list (Z * Z)) :
  directZoom mgr ->
  flat_map (fun t => snd (blitTile mgr self t)) tiles = map (tileRect self) tiles.
Proof.
  intros Hzoom. induction tiles as [|[row col] tiles IH]; [reflexivity|].
  cbn [flat_map map]. rewrite IH. unfold blitTile, tileRect.
  destruct Hzoom as [-> | [-> | ->]]; reflexivity.
Qed.

(** What [redraw] calls, by zoom mode and number of dirty tiles. *)
Lemma redraw_calls (mgr : Manager) (self : cdgPlayer) (tiles : list (Z * Z)) :
  tilesFilled (redraw mgr self tiles) = tiles /\
  fills (redraw mgr self tiles) = [] /\
  marksAllDirty (redraw mgr self tiles) = 0%nat /\
  (tiles = [] -> redraw mgr self tiles = []) /\
  (tiles <> [] -> zoom_mode (options mgr) = "soft"%string ->
   flips (redraw mgr self tiles) = 1%nat /\ partialUpdates (redraw mgr self tiles) = []) /\
  (tiles <> [] -> directZoom mgr ->
   if Z.of_nat (List.length tiles) <? 24
   then flips (redraw mgr self tiles) = 0%nat /\
        partialUpdates (redraw mgr self tiles) = [map (tileRect self) tiles]
   else flips (redraw mgr self tiles) = 1%nat /\
        partialUpdates (redraw mgr self tiles) = []).
Proof.
  destruct tiles as [|t tiles]; [cbn; intuition congruence|].
  unfold redraw.
  destruct (blit_calls mgr self (t :: tiles)) as (B1 & B2 & B3 & B4 & B5).
  cbv zeta in B1, B2, B3, B4, B5.
  split_calls. rewrite B1, B2, B3, B4, B5.
  assert (forall tail : list event,
            tilesFilled tail = [] -> (t :: tiles) ++ tilesFilled tail = t :: tiles)
    as Htail by (intros tail ->; apply app_nil_r).
  split; [|split; [|split; [|split; [discriminate|split]]]].
  - apply Htail.
    destruct (String.eqb (zoom_mode (options mgr)) "soft");
      [|match goal with
        | |- context [if ?c then [EvDisplayUpdate _] else _] => destruct c
        end]; reflexivity.
  - destruct (String.eqb (zoom_mode (options mgr)) "soft");
      [|match goal with
        | |- context [if ?c then [EvDisplayUpdate _] else _] => destruct c
        end]; reflexivity.
  - destruct (String.eqb (zoom_mode (options mgr)) "soft");
      [|match goal with
        | |- context [if ?c then [EvDisplayUpdate _] else _] => destruct c
        end]; reflexivity.
  - intros _ ->. cbn. auto.
  - intros _ Hzoom. rewrite (blit_rects mgr self (t :: tiles) Hzoom).
    rewrite length_map.
    assert (String.eqb (zoom_mode (options mgr)) "soft" = false) as ->
      by (destruct Hzoom as [-> | [-> | ->]]; reflexivity).
    destruct (Z.of_nat (List.length (t :: tiles)) <? 24); cbn; auto.
Qed.

End RedrawFacts.

Lemma GetBorderColour_MarkTilesDirty (r : CdgPacketReader) :
  GetBorderColour (MarkTilesDirty r) = GetBorderColour r.
Proof. reflexivity. Qed.

Section DisplayClaims.
Context {pyk : PykPlayerBase} {interp : CdgInterpreter}.

(** The display update, branch by branch. *)
Lemma cdgDisplayUpdate_cases (mgr : Manager) (self : cdgPlayer) :
  let seen := GetBorderColour (packetReader self) in
  if opt_colour_eqb seen (borderColour self)
  then cdgDisplayUpdate mgr self =
         (self, [EvGetBorderColour] ++ [] ++ [EvGetDirtyTiles]
                ++ redraw mgr self (GetDirtyTiles (packetReader self)))
  else match seen with
       | Some c =>
           let self' := set_packetReader (MarkTilesDirty (packetReader self))
                                         (set_borderColour (Some c) self) in
           cdgDisplayUpdate mgr self =
             (self', [EvGetBorderColour] ++ [EvDisplayFill c; EvMarkTilesDirty]
                     ++ [EvGetDirtyTiles] ++ redraw mgr self' allTiles)
       | None =>
           let self' := set_borderColour None self in
           cdgDisplayUpdate mgr self =
             (self', [EvGetBorderColour] ++ [] ++ [EvGetDirtyTiles]
                     ++ redraw mgr self' (GetDirtyTiles (packetReader self)))
       end.
Proof.
  cbv zeta. unfold cdgDisplayUpdate.
  destruct (opt_colour_eqb (GetBorderColour (packetReader self)) (borderColour self));
    [reflexivity|].
  destruct (GetBorderColour (packetReader self)); reflexivity.
Qed.

(** X10: a display update fills the display at most once, and only with a
    non-null border colour that differs from the last one seen; it marks
    all tiles dirty exactly when it fills; afterwards the last colour seen
    is the one the reader reports, also when that is null. *)
Theorem display_fill_on_change (mgr : Manager) (self : cdgPlayer) :
  let result := cdgDisplayUpdate mgr self in
  (forall c, In c (fills (snd result)) <->
             GetBorderColour (packetReader self) = Some c /\ borderColour self <> Some c) /\
  (List.length (fills (snd result)) <= 1)%nat /\
  marksAllDirty (snd result) = List.length (fills (snd result)) /\
  borderColour (fst result) = GetBorderColour (packetReader self) /\
  GetBorderColour (packetReader (fst result)) = GetBorderColour (packetReader self).
Proof.
  cbv zeta. pose proof (cdgDisplayUpdate_cases mgr self) as H. cbv zeta in H.
  destruct (opt_colour_eqb (GetBorderColour (packetReader self)) (borderColour self))
    eqn:E.
  - apply opt_colour_eqb_eq in E. rewrite H. cbn [fst snd]. split_calls.
    destruct (redraw_calls mgr self (GetDirtyTiles (packetReader self)))
      as (_ & -> & -> & _).
    cbn. repeat split; auto; try contradiction.
    intros [Hc Hn]. congruence.
  - assert (GetBorderColour (packetReader self) <> borderColour self) as Hne.
    { intros Heq. apply opt_colour_eqb_eq in Heq. congruence. }
    destruct (GetBorderColour (packetReader self)) as [c|] eqn:Hseen;
      cbv zeta in H; rewrite H; cbn [fst snd]; split_calls.
    + match goal with
      | |- context [redraw ?m ?s ?l] =>
          destruct (redraw_calls m s l) as (_ & -> & -> & _)
      end.
      cbn. repeat split; auto.
      * match goal with Hin : _ \/ False |- _ => destruct Hin as [<-|[]] end.
        reflexivity.
      * match goal with Hin : _ \/ False |- _ => destruct Hin as [<-|[]] end.
        congruence.
      * intros [Hc _]. left. congruence.
    + match goal with
      | |- context [redraw ?m ?s ?l] =>
          destruct (redraw_calls m s l) as (_ & -> & -> & _)
      end.
      cbn. repeat split; auto; try contradiction.
      intros [Hc _]. discriminate.
Qed.

(** X11: a display update hands to [FillTile] exactly the tiles the reader
    reports dirty (all 24 after a border change), each once and in the
    reader's order, so a tile that is not dirty is never redrawn; with no
    dirty tile and no border change it calls nothing beyond its two
    questions to the reader and leaves the player as it is. *)
Theorem display_update_fills_dirty (mgr : Manager) (self : cdgPlayer) :
  let result := cdgDisplayUpdate mgr self in
  tilesFilled (snd result) = GetDirtyTiles (packetReader (fst result)) /\
  (fills (snd result) = [] ->
   GetDirtyTiles (packetReader (fst result)) = GetDirtyTiles (packetReader self)) /\
  (fills (snd result) <> [] -> GetDirtyTiles (packetReader (fst result)) = allTiles) /\
  (GetBorderColour (packetReader self) = borderColour self ->
   GetDirtyTiles (packetReader self) = [] ->
   result = (self, [EvGetBorderColour; EvGetDirtyTiles])).
Proof.
  cbv zeta. pose proof (cdgDisplayUpdate_cases mgr self) as H. cbv zeta in H.
  destruct (opt_colour_eqb (GetBorderColour (packetReader self)) (borderColour self))
    eqn:E.
  - rewrite H. cbn [fst snd]. split_calls.
    destruct (redraw_calls mgr self (GetDirtyTiles (packetReader self)))
      as (-> & -> & _ & Hnone & _).
    cbn. repeat split; auto; try congruence.
    intros _ Hclean. rewrite (Hnone Hclean). reflexivity.
  - assert (GetBorderColour (packetReader self) <> borderColour self) as Hne.
    { intros Heq. apply opt_colour_eqb_eq in Heq. congruence. }
    destruct (GetBorderColour (packetReader self)) as [c|] eqn:Hseen;
      cbv zeta in H; rewrite H; cbn [fst snd]; split_calls;
      match goal with
      | |- context [redraw ?m ?s ?l] =>
          destruct (redraw_calls m s l) as (-> & -> & _)
      end;
      cbn; repeat split; auto; try congruence.
Qed.

(** X12: in the modes that blit tiles straight to the display (none, quick,
    int) an update with fewer than 24 dirty tiles flips nothing and hands
    [pygame.display.update] the rectangles of the dirty tiles, one each; with
    24 dirty tiles or more it flips the whole display once instead; in soft
    mode any update with a dirty tile flips once.  Without a dirty tile no
    mode updates or flips anything. *)
Theorem display_update_or_flip (mgr : Manager) (self : cdgPlayer) :
  let result := cdgDisplayUpdate mgr self in
  let tiles := GetDirtyTiles (packetReader (fst result)) in
  (tiles = [] -> flips (snd result) = 0%nat /\ partialUpdates (snd result) = []) /\
  (tiles <> [] -> zoom_mode (options mgr) = "soft"%string ->
   flips (snd result) = 1%nat /\ partialUpdates (snd result) = []) /\
  (tiles <> [] -> directZoom mgr ->
   if Z.of_nat (List.length tiles) <? 24
   then flips (snd result) = 0%nat /\
        partialUpdates (snd result) = [map (tileRect self) tiles]
   else flips (snd result) = 1%nat /\ partialUpdates (snd result) = []).
Proof.
  cbv zeta. pose proof (cdgDisplayUpdate_cases mgr self) as H. cbv zeta in H.
  destruct (opt_colour_eqb (GetBorderColour (packetReader self)) (borderColour self));
    [|destruct (GetBorderColour (packetReader self)) as [c|]; cbv zeta in H];
    rewrite H; cbn [fst snd packetReader set_packetReader set_borderColour];
    split_calls;
    match goal with
    | |- context [redraw ?m ?s ?l] =>
        destruct (redraw_calls m s l) as (_ & _ & _ & R0 & Rsoft & Rdirect)
    end.
  - split; [intros Hn; rewrite (R0 Hn); auto|]. split.
    + intros Hn Hz. destruct (Rsoft Hn Hz) as [-> ->]. auto.
    + intros Hn Hz. specialize (Rdirect Hn Hz).
      destruct (Z.of_nat (List.length (GetDirtyTiles (packetReader self))) <? 24);
        destruct Rdirect as [-> ->]; auto.
  - change (GetDirtyTiles (MarkTilesDirty (packetReader self))) with allTiles.
    split; [discriminate|]. split.
    + intros Hn Hz. destruct (Rsoft Hn Hz) as [-> ->]. auto.
    + intros Hn Hz. specialize (Rdirect Hn Hz).
      change (Z.of_nat (List.length allTiles) <? 24) with false in Rdirect |- *.
      destruct Rdirect as [-> ->]. auto.
  - split; [intros Hn; rewrite (R0 Hn); auto|]. split.
    + intros Hn Hz. destruct (Rsoft Hn Hz) as [-> ->]. auto.
    + intros Hn Hz. specialize (Rdirect Hn Hz).
      destruct (Z.of_nat (List.length (GetDirtyTiles (packetReader self))) <? 24);
        destruct Rdirect as [-> ->]; auto.
Qed.

(** X13: after a resize the next display update redraws the entire screen:
    it fills all 24 tiles and, in each of the four zoom modes, flips the
    whole display once rather than updating rectangles. *)
Theorem resize_then_update_flips (mgr : Manager) (newSize : Z * Z) (self : cdgPlayer) :
  directZoom mgr \/ zoom_mode (options mgr) = "soft"%string ->
  let resized := fst (doResize mgr newSize self) in
  let result := cdgDisplayUpdate mgr resized in
  tilesFilled (snd result) = allTiles /\
  flips (snd result) = 1%nat /\
  partialUpdates (snd result) = [].
Proof.
  intros Hzoom resized result.
  assert (GetDirtyTiles (packetReader resized) = allTiles) as Hdirty by reflexivity.
  pose proof (cdgDisplayUpdate_cases mgr resized) as H. cbv zeta in H.
  assert (GetDirtyTiles (packetReader (fst result)) = allTiles) as Hall.
  { unfold result.
    destruct (opt_colour_eqb (GetBorderColour (packetReader resized)) (borderColour resized));
      [|destruct (GetBorderColour (packetReader resized)); cbv zeta in H];
      rewrite H; reflexivity. }
  assert (tilesFilled (snd result) = GetDirtyTiles (packetReader (fst result))) as Hfilled.
  { unfold result.
    destruct (opt_colour_eqb (GetBorderColour (packetReader resized)) (borderColour resized));
      [|destruct (GetBorderColour (packetReader resized)); cbv zeta in H];
      rewrite H; cbn [fst snd]; split_calls;
      match goal with
      | |- context [redraw ?m ?s ?l] => destruct (redraw_calls m s l) as (-> & _)
      end; reflexivity. }
  split; [rewrite Hfilled; exact Hall|].
  unfold result in *.
  destruct (opt_colour_eqb (GetBorderColour (packetReader resized)) (borderColour resized));
    [|destruct (GetBorderColour (packetReader resized)); cbv zeta in H];
    rewrite H in Hall |- *; cbn [fst snd] in Hall |- *; split_calls;
    match goal with
    | |- context [redraw ?m ?s ?l] =>
        destruct (redraw_calls m s l) as (_ & _ & _ & _ & Rsoft & Rdirect)
    end;
    cbn [packetReader set_packetReader set_borderColour] in Hall;
    try rewrite Hdirty in *;
    (destruct Hzoom as [Hz|Hz];
     [specialize (Rdirect ltac:(discriminate) Hz);
      change (Z.of_nat (List.length allTiles) <? 24) with false in Rdirect;
      destruct Rdirect as [-> ->]
     |destruct (Rsoft ltac:(discriminate) Hz) as [-> ->]]);
    auto.
Qed.

(** X14: a display update leaves nothing for an immediate second one to do
    about the border: the second neither fills the display nor marks tiles,
    and returns the player unchanged. *)
Theorem display_update_settles (mgr mgr' : Manager) (self : cdgPlayer) :
  let first := cdgDisplayUpdate mgr self in
  let second := cdgDisplayUpdate mgr' (fst first) in
  fst second = fst first /\
  fills (snd second) = [] /\
  marksAllDirty (snd second) = 0%nat.
Proof.
  cbv zeta.
  assert (borderColour (fst (cdgDisplayUpdate mgr self))
          = GetBorderColour (packetReader (fst (cdgDisplayUpdate mgr self)))) as Hsync.
  { pose proof (cdgDisplayUpdate_cases mgr self) as H. cbv zeta in H.
    destruct (opt_colour_eqb (GetBorderColour (packetReader self)) (borderColour self))
      eqn:E; [apply opt_colour_eqb_eq in E|
              destruct (GetBorderColour (packetReader self)) eqn:Hseen; cbv zeta in H];
      rewrite H; cbn [fst borderColour set_borderColour packetReader set_packetReader];
      rewrite ?GetBorderColour_MarkTilesDirty; congruence. }
  pose proof (cdgDisplayUpdate_cases mgr' (fst (cdgDisplayUpdate mgr self))) as H.
  cbv zeta in H. rewrite <- Hsync in H.
  assert (opt_colour_eqb (borderColour (fst (cdgDisplayUpdate mgr self)))
                         (borderColour (fst (cdgDisplayUpdate mgr self))) = true) as E
    by (apply opt_colour_eqb_eq; reflexivity).
  rewrite E in H. rewrite H. cbn [fst snd]. split_calls.
  match goal with
  | |- context [redraw ?m ?s ?l] => destruct (redraw_calls m s l) as (_ & -> & -> & _)
  end.
  auto.
Qed.

End DisplayClaims.

(** ** The consumed count and the reader *)

Lemma nondecreasing_tail (x : Z) (l : list Z) :
  nondecreasing (x :: l) -> nondecreasing l.
Proof. destruct l as [|y l]; cbn; tauto. Qed.

Lemma nondecreasing_last (l : list Z) :
  forall x d, nondecreasing (x :: l) -> l <> [] -> x <= last l d.
Proof.
  induction l as [|y l IH]; intros x d Hn Hne; [congruence|].
  destruct Hn as [Hxy Hn].
  destruct l as [|z l]; [cbn; lia|].
  specialize (IH y d Hn ltac:(discriminate)).
  change (last (y :: z :: l) d) with (last (z :: l) d). lia.
Qed.

Lemma last_from_head {A : Type} (l : list A) :
  forall a d : A, last (a :: l) d = last l a.
Proof.
  induction l as [|b l IH]; intros a d; [reflexivity|].
  change (last (a :: b :: l) d) with (last (b :: l) d).
  rewrite (IH b d), (IH b a). reflexivity.
Qed.

Section SyncClaims.
Context {pyk : PykPlayerBase} {interp : CdgInterpreter}.

(** What one poll does to the consumed count and to the reader's count. *)
Lemma doStuff_counts (mgr : Manager) (clk : Clock) (self : cdgPlayer) :
  let result := doStuff mgr clk self in
  cdgDelivered (packetReader (fst result)) - cdgDelivered (packetReader self)
    <= cdgReadPackets (fst result) - cdgReadPackets self /\
  (closed (snd result) = false ->
   cdgDelivered (packetReader (fst result)) - cdgDelivered (packetReader self)
     = cdgReadPackets (fst result) - cdgReadPackets self).
Proof.
  cbv zeta. destruct (pollPlaying self) eqn:Hplay.
  - destruct (doStuff_playing mgr clk self Hplay)
      as ((_ & _ & Hread & _) & (_ & Hdel) & (_ & Hclosed & _)).
    cbv zeta in Hread, Hdel, Hclosed. rewrite Hread, Hdel, Hclosed.
    set (pending := pollPosition mgr clk self * 300 / 1000 - cdgReadPackets self).
    destruct (pending >? 0) eqn:Hp; [|cbn; lia].
    pose proof (DoPackets_delivered pending (packetReader self)
                  (snd (DoPackets pending (packetReader self)))
                  (fst (DoPackets pending (packetReader self))) ltac:(lia)) as Hcount.
    rewrite <- surjective_pairing in Hcount. specialize (Hcount eq_refl).
    destruct (fst (DoPackets pending (packetReader self))); cbn [andb negb].
    + lia.
    + split; [lia|discriminate].
  - rewrite (doStuff_idle mgr clk self Hplay). cbn. lia.
Qed.

Lemma step_covers (mgr : Manager) (op : operation) (self : cdgPlayer) :
  countCoversDelivered self -> countCoversDelivered (fst (step mgr op self)).
Proof.
  unfold countCoversDelivered. intros H. destruct op; cbn [step].
  - unfold doPlay. destruct (negb (nomusic (options mgr))); cbn; lia.
  - unfold doPause. destruct (negb (nomusic (options mgr))); cbn; lia.
  - unfold doUnpause. destruct (negb (nomusic (options mgr)));
      [destruct (PauseStartTime self)|]; cbn; lia.
  - unfold doResize. cbn [fst cdgReadPackets packetReader set_packetReader].
    destruct (computeDisplaySize_frame mgr self) as (-> & -> & _). cbn. lia.
  - destruct (doStuff_counts mgr clk self) as [Hle _]. cbv zeta in Hle. lia.
  - destruct (cdgDisplayUpdate_frame mgr self) as ((_ & Hc & _) & (Hd & _) & _).
    cbv zeta in Hc, Hd. lia.
  - cbn. lia.
  - unfold doRewind. destruct (negb (nomusic (options mgr))); cbn; lia.
Qed.

(** X15: through every sequence of operations, rewinds included, the
    consumed count stays at or above the number of packets the reader has
    delivered since it was opened or rewound, provided it was so at the
    start (as it is for a new player); and a poll that does not close the
    player raises the two by the same amount, so the count and the reader
    stay exactly in step until the end of the file. *)
Theorem run_count_covers (ops : list (Manager * operation)) (self : cdgPlayer) :
  countCoversDelivered self ->
  Forall countCoversDelivered (run ops self) /\
  (forall mgr clk p,
     closed (snd (doStuff mgr clk p)) = false ->
     cdgDelivered (packetReader (fst (doStuff mgr clk p))) - cdgDelivered (packetReader p)
     = cdgReadPackets (fst (doStuff mgr clk p)) - cdgReadPackets p).
Proof.
  intros H. split.
  - revert self H. induction ops as [|[mgr op] rest IH]; intros self H; [constructor|].
    cbn [run]. constructor; [|apply IH]; apply step_covers; exact H.
  - intros mgr clk p. apply (doStuff_counts mgr clk p).
Qed.

(** X16: along a sequence of polls whose song positions never go back, the
    consumed count is at every stage exactly the larger of the count at the
    start and the packets due at the last position seen: however
    irregularly the polls come, the count is where one poll at the last
    position would have put it. *)
Theorem polls_catch_up (mgr : Manager) (clks : list Clock) (self : cdgPlayer) :
  nondecreasing (positionsSeen (polls mgr clks self)) ->
  cdgReadPackets (finalPlayer (map after (polls mgr clks self)) self) =
  match positionsSeen (polls mgr clks self) with
  | [] => cdgReadPackets self
  | seen => Z.max (cdgReadPackets self) (last seen 0 * 300 / 1000)
  end.
Proof.
  revert self. induction clks as [|clk rest IH]; intros self Hn; [reflexivity|].
  rewrite polls_cons in Hn |- *.
  unfold positionsSeen in Hn |- *. cbn [flat_map seen map after] in Hn |- *.
  fold (positionsSeen (polls mgr rest (fst (doStuff mgr clk self)))) in Hn |- *.
  unfold finalPlayer in IH |- *.
  replace (last (fst (doStuff mgr clk self)
                 :: map after (polls mgr rest (fst (doStuff mgr clk self)))) self)
    with (last (map after (polls mgr rest (fst (doStuff mgr clk self))))
               (fst (doStuff mgr clk self)))
    by (symmetry; apply last_from_head).
  pose proof (doStuff_consumed mgr clk self) as Hc.
  destruct (pollPlaying self); cbn [app] in Hn |- *.
  - specialize (IH (fst (doStuff mgr clk self)) (nondecreasing_tail _ _ Hn)).
    rewrite IH, Hc.
    destruct (positionsSeen (polls mgr rest (fst (doStuff mgr clk self))))
      as [|e seen] eqn:Hseen; [reflexivity|].
    pose proof (nondecreasing_last (e :: seen) (pollPosition mgr clk self) 0 Hn
                  ltac:(discriminate)) as Hlast.
    change (last (pollPosition mgr clk self :: e :: seen) 0) with (last (e :: seen) 0).
    assert (pollPosition mgr clk self * 300 / 1000 <= last (e :: seen) 0 * 300 / 1000)
      as Hdue by (apply Z.div_le_mono; lia).
    lia.
  - specialize (IH (fst (doStuff mgr clk self)) Hn). rewrite IH, Hc. reflexivity.
Qed.

End SyncClaims.

(** ** Display geometry and audio properties *)






Section GeometryClaims.
Context {pyk : PykPlayerBase} {interp : CdgInterpreter}.



(** X19: the audio properties suggested for a sound file always ask for
    signed 16-bit samples and 1 or 2 channels; they are CD quality (44100
    Hz, 2 channels) whenever the file's extension, lower-cased, is not .mp3
    or MP3Info cannot read the file, and otherwise the file's own sample
    rate with 2 channels exactly when its mode mentions stereo. *)
Theorem audio_properties_shape (os : Os) (filename : string) :
  exists rate channels,
    getAudioProperties os filename = (rate, -16, channels) /\
    (channels = 1 \/ channels = 2) /\
    (lower (snd (path_splitext os filename)) <> ".mp3"%string \/
     MP3Info os filename = None ->
     rate = 44100 /\ channels = 2) /\
    (forall samplerate mode,
       lower (snd (path_splitext os filename)) = ".mp3"%string ->
       MP3Info os filename = Some (samplerate, mode) ->
       rate = samplerate /\ channels = (if contains "stereo" mode then 2 else 1)).
Proof.
  unfold getAudioProperties, getMp3AudioProperties.
  destruct (path_splitext os filename) as [basename ext]. cbn [snd].
  destruct (String.eqb (lower ext) ".mp3") eqn:E.
  - apply String.eqb_eq in E.
    destruct (MP3Info os filename) as [[samplerate mode]|].
    + exists samplerate, (if contains "stereo" mode then 2 else 1).
      split; [reflexivity|].
      split; [destruct (contains "stereo" mode); auto|].
      split; [intros [H|H]; congruence|].
      intros r m _ H. injection H as <- <-. auto.
    + exists 44100, 2. repeat split; auto; intros; discriminate.
  - apply String.eqb_neq in E. exists 44100, 2.
    repeat split; auto; intros; congruence.
Qed.

End GeometryClaims.

(** * The sample installation at work, continued *)

Section MoreSampleRuns.
#[local] Existing Instance samplePyk.
#[local] Existing Instance sampleInterpreter.

(** The sound file of the sample disk is found whatever the case of its
    extension. *)
Lemma findSoundFile_choice_witness :
  nomusic (options sampleManager) = false /\
  path_split sampleOs (drop_last3 "/k/song.cdg") = ("/k", "song.")%string /\
  listdir sampleOs "/k" = Some ["other.txt"; "song.cdg"; "song.MP3"]%string /\
  findSoundFile sampleOs sampleManager "/k/song.cdg"
    = (Returns (Some "/k/song.MP3"%string), []) /\
  ([] = @nil event /\
   exists f pre ext post,
     Some "/k/song.MP3"%string = Some (path_join sampleOs "/k" f) /\
     In f ["other.txt"; "song.cdg"; "song.MP3"]%string /\
     String.prefix "song." f = true /\
     ["wav"; "ogg"; "mp3"]%string = pre ++ ext :: post /\
     lower f = lower ("song." ++ ext) /\
     forall e f', In e pre -> In f' ["other.txt"; "song.cdg"; "song.MP3"]%string ->
                  String.prefix "song." f' = true ->
                  lower f' <> lower ("song." ++ e)).
Proof.
  split; [reflexivity|]. split; [reflexivity|]. split; [reflexivity|].
  split; [reflexivity|].
  apply (findSoundFile_choice sampleOs sampleManager "/k/song.cdg" "/k" "song."
           ["other.txt"; "song.cdg"; "song.MP3"]%string (Some "/k/song.MP3"%string) []);
    reflexivity.
Defined.

Lemma init_returns_file_witness :
  cdgPlayer_init sampleOs sampleManager (Some "/k/song.cdg"%string)
    = (Returns samplePlayer,
       snd (cdgPlayer_init sampleOs sampleManager (Some "/k/song.cdg"%string))) /\
  (completeFileName (FileName (pykPlayer_init (Some "/k/song.cdg"%string)))
     = Some (FileName (base samplePlayer)) /\
   isfile sampleOs (FileName (base samplePlayer)) = true /\
   In (EvOpenReader (FileName (base samplePlayer)))
      (snd (cdgPlayer_init sampleOs sampleManager (Some "/k/song.cdg"%string))) /\
   if nomusic (options sampleManager)
   then SoundFileName samplePlayer = None /\ InternalOffsetTime samplePlayer = 0 /\
        (forall f, ~ In (EvMusicLoad f)
                        (snd (cdgPlayer_init sampleOs sampleManager
                                (Some "/k/song.cdg"%string)))) /\
        (forall props, ~ In (EvOpenAudio props)
                            (snd (cdgPlayer_init sampleOs sampleManager
                                    (Some "/k/song.cdg"%string))))
   else (exists sound, SoundFileName samplePlayer = Some sound /\
                       In (EvMusicLoad sound)
                          (snd (cdgPlayer_init sampleOs sampleManager
                                  (Some "/k/song.cdg"%string)))) /\
        InternalOffsetTime samplePlayer = GetAudioBufferMS sampleManager).
Proof.
  assert (cdgPlayer_init sampleOs sampleManager (Some "/k/song.cdg"%string)
          = (Returns samplePlayer,
             snd (cdgPlayer_init sampleOs sampleManager (Some "/k/song.cdg"%string))))
    as H by (vm_compute; reflexivity).
  split; [exact H|].
  exact (init_returns_file sampleOs sampleManager (Some "/k/song.cdg"%string)
           samplePlayer _ H).
Defined.

Lemma init_returns_fresh_witness :
  cdgPlayer_init sampleOs sampleManager (Some "/k/song.cdg"%string)
    = (Returns samplePlayer,
       snd (cdgPlayer_init sampleOs sampleManager (Some "/k/song.cdg"%string))) /\
  (cdgReadPackets samplePlayer = 0 /\ cdgPacketsDue samplePlayer = 0 /\
   LastPos samplePlayer = 0 /\ curr_pos samplePlayer = 0 /\
   PlayTime samplePlayer = 0 /\ PlayStartTime samplePlayer = 0 /\
   pauseOffsetTime samplePlayer = 0 /\
   borderColour samplePlayer = None /\
   packetReader samplePlayer
     = OpenReader (file_bytes sampleOs (FileName (base samplePlayer))) /\
   State (base samplePlayer) = State (pykPlayer_init (Some "/k/song.cdg"%string)) /\
   fps (options sampleManager) <> 0).
Proof.
  assert (cdgPlayer_init sampleOs sampleManager (Some "/k/song.cdg"%string)
          = (Returns samplePlayer,
             snd (cdgPlayer_init sampleOs sampleManager (Some "/k/song.cdg"%string))))
    as H by (vm_compute; reflexivity).
  split; [exact H|].
  exact (init_returns_fresh sampleOs sampleManager (Some "/k/song.cdg"%string)
           samplePlayer _ H).
Defined.

(** A CDG file alone in its directory: duet.mp3 belongs to another song and
    solo.txt has none of the extensions. *)
Lemma init_no_sound_file_witness :
  completeFileName (FileName (pykPlayer_init (Some "/q/solo."%string)))
    = Some "/q/solo.cdg"%string /\
  isfile lonelyOs "/q/solo.cdg" = true /\
  nomusic (options sampleManager) = false /\
  path_split lonelyOs (drop_last3 "/q/solo.cdg") = ("/q", "solo.")%string /\
  listdir lonelyOs "/q" = Some ["solo.cdg"; "solo.txt"; "duet.mp3"]%string /\
  (forall e f, In e ["wav"; "ogg"; "mp3"]%string ->
               In f ["solo.cdg"; "solo.txt"; "duet.mp3"]%string ->
               String.prefix "solo." f = true -> lower f <> lower ("solo." ++ e)) /\
  cdgPlayer_init lonelyOs sampleManager (Some "/q/solo."%string) =
  (Raises (StringException "NoSoundFile"),
   [EvErrorNotify ("There is no mp3 or ogg file to match " ++ "/q/solo.cdg")]).
Proof.
  assert (forall e f, In e ["wav"; "ogg"; "mp3"]%string ->
                      In f ["solo.cdg"; "solo.txt"; "duet.mp3"]%string ->
                      String.prefix "solo." f = true ->
                      lower f <> lower ("solo." ++ e)) as Hnone.
  { intros e f He Hf Hp.
    destruct He as [<-|[<-|[<-|[]]]]; destruct Hf as [<-|[<-|[<-|[]]]];
      solve [discriminate Hp | vm_compute; discriminate]. }
  split; [reflexivity|]. split; [reflexivity|]. split; [reflexivity|].
  split; [reflexivity|]. split; [reflexivity|]. split; [exact Hnone|].
  apply (init_no_sound_file lonelyOs sampleManager (Some "/q/solo."%string)
           "/q/solo.cdg" "/q" "solo." ["solo.cdg"; "solo.txt"; "duet.mp3"]%string);
    try reflexivity.
  exact Hnone.
Defined.

Lemma init_fps_zero_witness :
  fps (options stillManager) = 0 /\
  ((forall self, fst (cdgPlayer_init sampleOs stillManager (Some "/k/song.cdg"%string))
                 <> Returns self) /\
   (fst (cdgPlayer_init sampleOs stillManager (Some "/k/song.cdg"%string))
      = Raises ZeroDivisionError ->
    In EvOpenDisplay (snd (cdgPlayer_init sampleOs stillManager (Some "/k/song.cdg"%string))) /\
    (exists name,
       In (EvOpenReader name)
          (snd (cdgPlayer_init sampleOs stillManager (Some "/k/song.cdg"%string)))) /\
    (nomusic (options stillManager) = false ->
     exists sound,
       In (EvMusicLoad sound)
          (snd (cdgPlayer_init sampleOs stillManager (Some "/k/song.cdg"%string)))))).
Proof.
  split; [reflexivity|].
  apply (init_fps_zero sampleOs stillManager (Some "/k/song.cdg"%string)).
  reflexivity.
Defined.

Example init_fps_zero_raises :
  fst (cdgPlayer_init sampleOs stillManager (Some "/k/song.cdg"%string))
  = Raises ZeroDivisionError.
Proof. vm_compute. reflexivity. Qed.

(** Paused when the mixer says 105 ms, resumed when it says 145 ms. *)
Lemma pause_unpause_offset_witness :
  nomusic (options sampleManager) = false /\
  (let slept := music_get_pos (mkClock 145 0) - music_get_pos (mkClock 105 0) in
   exists resumed,
     doUnpause sampleManager (mkClock 145 0)
               (setState 2 (fst (doPause sampleManager (mkClock 105 0) playingPlayer)))
       = (Returns resumed, [EvMusicUnpause]) /\
     snd (doPause sampleManager (mkClock 105 0) playingPlayer) = [EvMusicPause] /\
     pauseOffsetTime resumed = pauseOffsetTime playingPlayer + slept /\
     (forall clk, pollPosition sampleManager clk resumed
                  = pollPosition sampleManager clk (setState 2 playingPlayer) - slept) /\
     cdgReadPackets resumed = cdgReadPackets playingPlayer /\
     LastPos resumed = LastPos playingPlayer /\
     packetReader resumed = packetReader playingPlayer).
Proof.
  split; [reflexivity|].
  apply (pause_unpause_offset sampleManager (mkClock 105 0) (mkClock 145 0) 2
           playingPlayer).
  reflexivity.
Defined.

(** Played at tick 1000, paused at 1500, resumed at 1800, read at 2000. *)
Lemma nomusic_clock_witness :
  nomusic (options silentManager) = true /\
  2 <> STATE_PLAYING /\
  (let played := setState STATE_PLAYING
                   (fst (doPlay silentManager (mkClock 0 1000) samplePlayer)) in
   let paused := setState 2 (fst (doPause silentManager (mkClock 0 1500) played)) in
   GetPos silentManager (mkClock 0 2000) played
     = time_get_ticks (mkClock 0 2000) - time_get_ticks (mkClock 0 1000) /\
   GetPos silentManager (mkClock 0 2000) paused
     = time_get_ticks (mkClock 0 1500) - time_get_ticks (mkClock 0 1000) /\
   snd (doPlay silentManager (mkClock 0 1000) samplePlayer) = [] /\
   snd (doPause silentManager (mkClock 0 1500) played) = [] /\
   exists resumed,
     doUnpause silentManager (mkClock 0 1800) paused = (Returns resumed, []) /\
     GetPos silentManager (mkClock 0 2000) (setState STATE_PLAYING resumed)
     = (time_get_ticks (mkClock 0 2000) - time_get_ticks (mkClock 0 1800))
       + (time_get_ticks (mkClock 0 1500) - time_get_ticks (mkClock 0 1000))).
Proof.
  assert (2 <> STATE_PLAYING) as Hst by (cbn; lia).
  split; [reflexivity|]. split; [exact Hst|].
  apply (nomusic_clock silentManager (mkClock 0 1000) (mkClock 0 1500) (mkClock 0 1800)
           (mkClock 0 2000) 2 samplePlayer); [reflexivity|exact Hst].
Defined.

Lemma resize_then_update_flips_witness :
  (directZoom sampleManager \/ zoom_mode (options sampleManager) = "soft"%string) /\
  (let resized := fst (doResize sampleManager (800, 600) playingPlayer) in
   let result := cdgDisplayUpdate sampleManager resized in
   tilesFilled (snd result) = allTiles /\
   flips (snd result) = 1%nat /\
   partialUpdates (snd result) = []).
Proof.
  assert (directZoom sampleManager \/ zoom_mode (options sampleManager) = "soft"%string)
    as Hzoom by (left; right; left; reflexivity).
  split; [exact Hzoom|].
  exact (resize_then_update_flips sampleManager (800, 600) playingPlayer Hzoom).
Defined.

Lemma run_count_covers_witness :
  countCoversDelivered playingPlayer /\
  (Forall countCoversDelivered (run sampleSession playingPlayer) /\
   (forall mgr clk p,
      closed (snd (doStuff mgr clk p)) = false ->
      cdgDelivered (packetReader (fst (doStuff mgr clk p))) - cdgDelivered (packetReader p)
      = cdgReadPackets (fst (doStuff mgr clk p)) - cdgReadPackets p)).
Proof.
  assert (countCoversDelivered playingPlayer) as H
    by (unfold countCoversDelivered; vm_compute; discriminate).
  split; [exact H|].
  exact (run_count_covers sampleSession playingPlayer H).
Defined.

Lemma polls_catch_up_witness :
  nondecreasing (positionsSeen (polls sampleManager sampleClocks playingPlayer)) /\
  cdgReadPackets
    (finalPlayer (map after (polls sampleManager sampleClocks playingPlayer)) playingPlayer)
  = match positionsSeen (polls sampleManager sampleClocks playingPlayer) with
    | [] => cdgReadPackets playingPlayer
    | seen => Z.max (cdgReadPackets playingPlayer) (last seen 0 * 300 / 1000)
    end.
Proof.
  assert (nondecreasing (positionsSeen (polls sampleManager sampleClocks playingPlayer)))
    as H.
  { replace (positionsSeen (polls sampleManager sampleClocks playingPlayer))
      with [0; 4; 4; 20] by (vm_compute; reflexivity).
    cbn. lia. }
  split; [exact H|].
  exact (polls_catch_up sampleManager sampleClocks playingPlayer H).
Defined.

Example polls_catch_up_count :
  cdgReadPackets
    (finalPlayer (map after (polls sampleManager sampleClocks playingPlayer)) playingPlayer)
  = 6.
Proof. vm_compute. reflexivity. Qed.


Example small_window_geometry :
  displayScale (computeDisplaySize smallManager samplePlayer) = (1 # 3)%Q /\
  tileRect (computeDisplaySize smallManager samplePlayer) (5, 3) = (131, 67, 16, 17).
Proof. vm_compute. split; reflexivity. Qed.

End MoreSampleRuns.
